(** * Game UI AI backend ([server/main.py]): a shallow embedding

    The three generation endpoints of the FastAPI application are
    embedded as functions into an exception monad.  Python values are
    modelled as the interpreter has them: [str] is a sequence of
    Unicode code points (so [len] and slicing count code points, not
    bytes), [int] is [Z], a [dict] is an insertion-ordered association
    list, and a parsed JSON document is a tree of those. *)

From Stdlib Require Import ZArith NArith Lia String Ascii DecimalString SpecFloat.
From stdpp Require Import base list option.

Set Default Proof Using "Type".
Set Warnings "-register-all".

(** ** Python strings *)

Module Py.

Definition codepoint := N.

(** A Python [str]: its code points in order. *)
Definition str := list codepoint.

(** The source file is UTF-8.  A literal of the source is written here
    as the same UTF-8 text and decoded to its code points. *)
Fixpoint utf8_decode (bs : list N) : str :=
  match bs with
  | [] => []
  | b0 :: r0 =>
    if (b0 <? 128)%N then b0 :: utf8_decode r0
    else if (b0 <? 224)%N then
      match r0 with
      | b1 :: r1 =>
        N.lor (N.shiftl (N.land b0 31) 6) (N.land b1 63) :: utf8_decode r1
      | _ => []
      end
    else if (b0 <? 240)%N then
      match r0 with
      | b1 :: b2 :: r2 =>
        N.lor (N.shiftl (N.land b0 15) 12)
          (N.lor (N.shiftl (N.land b1 63) 6) (N.land b2 63)) :: utf8_decode r2
      | _ => []
      end
    else
      match r0 with
      | b1 :: b2 :: b3 :: r3 =>
        N.lor (N.shiftl (N.land b0 7) 18)
          (N.lor (N.shiftl (N.land b1 63) 12)
             (N.lor (N.shiftl (N.land b2 63) 6) (N.land b3 63))) :: utf8_decode r3
      | _ => []
      end
  end.

Definition u (s : string) : str :=
  utf8_decode (N_of_ascii <$> list_ascii_of_string s).
Arguments u s%_string : simpl never.

(** ["\n"] *)
Definition nl : str := [10%N].

(** [sep.join(parts)] *)
Fixpoint join (sep : str) (parts : list str) : str :=
  match parts with
  | [] => []
  | [p] => p
  | p :: rest => p ++ sep ++ join sep rest
  end.

(** [l[:k]] for a list or a string: a negative bound counts from the end. *)
Definition slice_to {A} (k : Z) (l : list A) : list A :=
  if (k <? 0)%Z then take (length l - Z.to_nat (- k)) l
  else take (Z.to_nat k) l.

(** [l[k:]] *)
Definition slice_from {A} (k : Z) (l : list A) : list A :=
  if (k <? 0)%Z then drop (length l - Z.to_nat (- k)) l
  else drop (Z.to_nat k) l.

(** [str(i)] for an [int]: decimal digits, a leading minus sign when
    negative. *)
Definition str_of_int (z : Z) : str :=
  N_of_ascii <$> list_ascii_of_string (NilZero.string_of_int (Z.to_int z)).

(** [str.isspace] for one character (CPython's [_PyUnicode_IsWhitespace]). *)
Definition isspace (c : codepoint) : bool :=
  ((9 <=? c) && (c <=? 13) || (28 <=? c) && (c <=? 32)
   || (c =? 133) || (c =? 160) || (c =? 5760)
   || (8192 <=? c) && (c <=? 8202)
   || (c =? 8232) || (c =? 8233) || (c =? 8239) || (c =? 8287)
   || (c =? 12288))%N.

Fixpoint lstrip (s : str) : str :=
  match s with
  | c :: r => if isspace c then lstrip r else s
  | [] => []
  end.

(** [s.strip()] *)
Definition strip (s : str) : str := rev (lstrip (rev (lstrip s))).

End Py.

Import Py.

(** ** Parsed JSON documents and Python's view of them *)

(** What [json.loads] can return: [None], [bool], [int], [float], [str],
    [list] and [dict] (keys are always [str]; insertion order is kept). *)
Inductive json :=
  | JNull
  | JBool (b : bool)
  | JInt (z : Z)
  | JFloat (f : spec_float)
  | JStr (s : str)
  | JList (l : list json)
  | JDict (d : list (str * json)).

(** A [Dict[str, Any]]. *)
Definition dict := list (str * json).

(** The value stored under a key, if the key is present. *)
Fixpoint dict_lookup (d : dict) (k : str) : option json :=
  match d with
  | [] => None
  | (k', v) :: r => if decide (k' = k) then Some v else dict_lookup r k
  end.

(** [d.get(k, default)] *)
Definition dict_get (d : dict) (k : str) (default : json) : json :=
  match dict_lookup d k with
  | Some v => v
  | None => default
  end.

(** [bool(v)]: [None], [False], zero, and the empty string, list and
    dict are falsy; everything else is truthy. *)
Definition truthy (v : json) : bool :=
  match v with
  | JNull => false
  | JBool b => b
  | JInt z => negb (z =? 0)%Z
  | JFloat (S754_zero _) => false
  | JFloat _ => true
  | JStr s => negb (bool_decide (s = []))
  | JList l => negb (bool_decide (l = []))
  | JDict d => negb (bool_decide (d = []))
  end.

(** [a or b] *)
Definition py_or (a b : json) : json := if truthy a then a else b.

Definition hexdigit (n : N) : codepoint :=
  (if n <? 10 then 48 + n else 87 + n)%N.

(** [k] lowercase hexadecimal digits of [c], most significant first. *)
Fixpoint hex (k : nat) (c : N) : str :=
  match k with
  | O => []
  | S k' => hexdigit (N.land (N.shiftr c (4 * N.of_nat k')) 15) :: hex k' c
  end.

(** ** Exceptions *)

(** The classes derived from [Exception] that the handlers can meet;
    these are what an [except Exception] clause catches. *)
Inductive exn :=
  | IndexError
  | AttributeError
  | ValueError (msg : str)
  | JSONDecodeError
  | ProviderError (detail : str).

Inductive result (A : Type) :=
  | Ok (a : A)
  | Raise (e : exn).
Arguments Ok {A} a.
Arguments Raise {A} e.

Definition bind {A B} (r : result A) (k : A -> result B) : result B :=
  match r with
  | Ok a => k a
  | Raise e => Raise e
  end.

Notation "'let*' x ':=' r 'in' k" := (bind r (fun x => k))
  (at level 10, x name, r at level 100, k at level 200).

(** [try: body / except Exception: handler] *)
Definition try_except {A} (body : result A) (handler : exn -> result A) : result A :=
  match body with
  | Ok a => Ok a
  | Raise e => handler e
  end.

(** [l[i]] for a non-negative literal index. *)
Definition index {A} (l : list A) (i : nat) : result A :=
  match l !! i with
  | Some a => Ok a
  | None => Raise IndexError
  end.

(** [v.get(k)]: only a [dict] has the method; a missing key gives [None]. *)
Definition json_get (v : json) (k : str) : result json :=
  match v with
  | JDict d => Ok (dict_get d k JNull)
  | _ => Raise AttributeError
  end.

(** What FastAPI answers: the value with status 200, or status 500 when
    the handler lets an exception escape. *)
Definition http_status {A} (r : result A) : Z :=
  match r with
  | Ok _ => 200
  | Raise _ => 500
  end.

(** ** The provider client *)

Record ChatMessage := { role : str; content : str }.

(** A [{"role": ..., "content": ...}] entry of [messages]. *)
Record Message := { msg_role : str; msg_content : str }.

(** The keyword arguments of [client.chat.completions.create]. *)
Record CompletionArgs := {
  model : str;
  messages : list Message;
  response_format : option str;
  temperature : spec_float;
  max_tokens : Z
}.

(** [resp.choices[i].message.content], which may be [None]. *)
Record Choice := { message_content : option str }.
Record Completion := { choices : list Choice }.

(** A constructed client: one call either returns a completion or raises. *)
Record Client := { create : CompletionArgs -> result Completion }.

(** The process environment and the outcome of the optional import. *)
Record Env := {
  getenv : str -> option str;
  OpenAI : option Client
}.

Definition get_openai_client (env : Env) : option Client :=
  match getenv env (u "OPENAI_API_KEY") with
  | None => None
  | Some api_key => if bool_decide (api_key = []) then None else OpenAI env
  end.

(** [os.getenv("MODEL", "gpt-4o-mini")] *)
Definition MODEL_DEFAULT (env : Env) : str :=
  match getenv env (u "MODEL") with
  | Some m => m
  | None => u "gpt-4o-mini"
  end.

(** The [float] literals [0.7] and [0.6] as IEEE binary64 values. *)
Definition float_0_7 : spec_float := S754_finite false 6305039478318694 (-53).
Definition float_0_6 : spec_float := S754_finite false 5404319552844595 (-53).

(** ** Request and response models *)

Record SuggestionRequest := {
  sug_chat : list ChatMessage;
  sug_world_events : list dict;
  n : Z
}.

Record SuggestionResponse := { suggestions : list str }.

Record ChatRequest := {
  chat_chat : list ChatMessage;
  chat_world_events : list dict;
  player_message : option str
}.

Record ChatResponse := { reply : str }.

Record VoiceRequest := {
  transcript : str;
  voice_chat : list ChatMessage;
  voice_world_events : list dict
}.

Record VoiceResponse := { world_event : dict }.

(** Building a response model from values of the declared field types
    is taken to succeed, so the constructors above stand for the calls
    [SuggestionResponse(...)], [ChatResponse(...)] and [VoiceResponse(...)]. *)

(** ** Test doubles

    Concrete environments, clients and runtime parts on which the
    handlers can be evaluated. *)

Module Double.

(** No credential in the environment. *)
Definition no_provider : Env := {| getenv := fun _ => None; OpenAI := None |}.

(** A credential is set and the client library imported. *)
Definition env_with (c : Client) : Env :=
  {| getenv := fun k => if decide (k = u "OPENAI_API_KEY") then Some (u "sk-test") else None;
     OpenAI := Some c |}.

(** A client whose every call raises. *)
Definition failing_client : Client :=
  {| create := fun _ => Raise (ProviderError (u "connection refused")) |}.

(** A client that answers every call with one choice. *)
Definition replying_client (text : option str) : Client :=
  {| create := fun _ => Ok {| choices := [ {| message_content := text |} ] |} |}.

(** A decoder that knows the documents of a table and rejects the rest. *)
Definition loads_table (table : list (str * json)) (s : str) : result json :=
  match dict_lookup table s with
  | Some v => Ok v
  | None => Raise JSONDecodeError
  end.

Definition float_repr : spec_float -> str := fun _ => u "0.0".
Definition isprintable : codepoint -> bool := fun _ => true.

(** The double-quote character of JSON text. *)
Definition dq : str := [34%N].

(** A provider answer for [/api/suggestions] whose list mixes JSON types. *)
Definition suggestions_doc : str :=
  u "{" ++ dq ++ u "suggestions" ++ dq ++ u ": [7, null, true, {" ++ dq ++ u "a" ++ dq
  ++ u ": [1, -2]}, [], " ++ dq ++ u "别抬头" ++ dq ++ u ", "
  ++ dq ++ u "0123456789abcdefghijklmnopqrstuvwxyz" ++ dq ++ u "]}".

Definition suggestions_list : list json :=
  [ JInt 7; JNull; JBool true; JDict [ (u "a", JList [JInt 1; JInt (-2)]) ]; JList [];
    JStr (u "别抬头"); JStr (u "0123456789abcdefghijklmnopqrstuvwxyz") ].

Definition suggestions_parsed : dict := [ (u "suggestions", JList suggestions_list) ].

(** A provider answer for [/api/voice] with a usable [t] only. *)
Definition voice_doc : str :=
  u "{" ++ dq ++ u "t" ++ dq ++ u ": " ++ dq ++ u "黄昏" ++ dq ++ u ", "
  ++ dq ++ u "title" ++ dq ++ u ": " ++ dq ++ dq ++ u ", "
  ++ dq ++ u "extra" ++ dq ++ u ": 0}".

Definition voice_parsed : dict :=
  [ (u "t", JStr (u "黄昏")); (u "title", JStr []); (u "extra", JInt 0) ].

Definition json_loads : str -> result json :=
  loads_table [ (suggestions_doc, JDict suggestions_parsed); (voice_doc, JDict voice_parsed) ].

Definition failing_env : Env := env_with failing_client.
Definition suggesting_env : Env := env_with (replying_client (Some suggestions_doc)).
Definition voicing_env : Env := env_with (replying_client (Some voice_doc)).

Definition storm : dict :=
  [ (u "t", JStr (u "黄昏")); (u "title", JStr (u "风暴")); (u "desc", JStr (u "云层压低")) ].
Definition untitled : dict := [ (u "desc", JStr (u "远处有光")); (u "id", JInt 3) ].
Definition omen : dict :=
  [ (u "id", JInt 4); (u "desc", JNull); (u "title", JStr (u "乌鸦")); (u "t", JInt 12) ].

Definition suggestion_request (k : Z) : SuggestionRequest :=
  {| sug_chat := [ {| role := u "player"; content := u "走吧" |} ];
     sug_world_events := [storm];
     n := k |}.

Definition chat_request (m : option str) : ChatRequest :=
  {| chat_chat := []; chat_world_events := [storm; untitled]; player_message := m |}.

Definition voice_request : VoiceRequest :=
  {| transcript := u "安静"; voice_chat := []; voice_world_events := [] |}.

(** Further doubles. *)

(** A reply with whitespace around it, and one of whitespace only. *)
Definition padded_reply : str := u "  好，走。 " ++ nl.
Definition blank_reply : str := u "   " ++ nl.

(** A provider answer for [/api/suggestions] with the empty list, and
    one whose [suggestions] is no list. *)
Definition empty_list_doc : str :=
  u "{" ++ dq ++ u "suggestions" ++ dq ++ u ": []}".
Definition not_a_list_doc : str :=
  u "{" ++ dq ++ u "suggestions" ++ dq ++ u ": " ++ dq ++ u "别抬头" ++ dq ++ u "}".
Definition not_a_list_parsed : json := JDict [ (u "suggestions", JStr (u "别抬头")) ].

(** A decoder that also knows these and the empty object. *)
Definition json_loads_more : str -> result json :=
  loads_table [ (u "{}", JDict []);
                (empty_list_doc, JDict [ (u "suggestions", JList []) ]);
                (not_a_list_doc, not_a_list_parsed);
                (suggestions_doc, JDict suggestions_parsed);
                (voice_doc, JDict voice_parsed) ].

(** An environment whose key is set to the empty string. *)
Definition empty_key_env : Env :=
  {| getenv := fun k => if decide (k = u "OPENAI_API_KEY") then Some [] else None;
     OpenAI := Some failing_client |}.

(** A client that answers the chat call only. *)
Definition chat_only_client (text : option str) : Client :=
  {| create := fun args =>
       if bool_decide (max_tokens args = 80%Z)
       then Ok {| choices := [ {| message_content := text |} ] |}
       else Raise (ProviderError (u "quota")) |}.

(** A client whose completion has no choice. *)
Definition choiceless_client : Client :=
  {| create := fun _ => Ok {| choices := [] |} |}.


(** A client whose answer is no JSON document, and an event whose title
    holds a newline. *)
Definition babbling_client : Client := replying_client (Some (u "not json")).
Definition noisy : dict := [ (u "title", JStr (u "a" ++ nl ++ u "b")) ].

End Double.

Section Server.

(** Three parts of the Python runtime are taken as given: the shortest
    round-trip [repr] of a [float], [str.isprintable] on one non-ASCII
    character (a table of the Unicode database), and [json.loads]. *)
Variable float_repr : spec_float -> str.
Variable isprintable : codepoint -> bool.
Variable json_loads : str -> result json.

(** *** [repr] and [str] *)

(** The quote [repr] puts around a string: double quotes only when the
    string has a single quote and no double quote. *)
Definition repr_quote (s : str) : codepoint :=
  if bool_decide (39%N ∈ s) && negb (bool_decide (34%N ∈ s)) then 34%N else 39%N.

Definition repr_char (quote ch : codepoint) : str :=
  (if (ch =? quote) || (ch =? 92) then [92; ch]
   else if ch =? 9 then [92; 116]
   else if ch =? 10 then [92; 110]
   else if ch =? 13 then [92; 114]
   else if (ch <? 32) || (ch =? 127) then [92; 120] ++ hex 2 ch
   else if ch <? 127 then [ch]
   else if isprintable ch then [ch]
   else if ch <=? 255 then [92; 120] ++ hex 2 ch
   else if ch <=? 65535 then [92; 117] ++ hex 4 ch
   else [92; 85] ++ hex 8 ch)%N.

Definition repr_str (s : str) : str :=
  let q := repr_quote s in
  [q] ++ concat (repr_char q <$> s) ++ [q].

(** [repr(v)] *)
Fixpoint py_repr (v : json) : str :=
  match v with
  | JNull => u "None"
  | JBool true => u "True"
  | JBool false => u "False"
  | JInt z => str_of_int z
  | JFloat f => float_repr f
  | JStr s => repr_str s
  | JList l => u "[" ++ join (u ", ") (py_repr <$> l) ++ u "]"
  | JDict d =>
    u "{"
    ++ join (u ", ") ((fun kv => let '(k, x) := kv in repr_str k ++ u ": " ++ py_repr x) <$> d)
    ++ u "}"
  end.

(** [str(v)]: a string is itself, anything else is its [repr]. *)
Definition py_str (v : json) : str :=
  match v with
  | JStr s => s
  | _ => py_repr v
  end.

(** [f"{v}"]: formatting with an empty format spec is [str(v)] for
    every JSON type. *)
Definition format (v : json) : str := py_str v.

(** [content or "{}"] where [content] is a [str] or [None]. *)
Definition str_or (content : option str) (default : str) : str :=
  match content with
  | Some (c :: s) => c :: s
  | _ => default
  end.

(** *** Helpers of the module *)

Definition base : list str := [
  u "等等，先别说话，听——你听见了吗？";
  u "向东转移队伍，躲开风暴眼。";
  u "把消息压下去，免得引起恐慌。";
  u "也许我们低估了天空的影子…";
  u "别抬头，风从北边变冷了。";
  u "嘘，嗡鸣在墙后回响。"
].

Definition _fallback_suggestions (n : Z) : list str :=
  slice_to (Z.max 1 (Z.min n (Z.of_nat (length base)))) base.

(** One element of the comprehension in [_build_world_context]. *)
Definition world_line (ev : dict) : str :=
  u "- " ++ format (dict_get ev (u "t") (JStr (u "?")))
  ++ u " · " ++ format (dict_get ev (u "title") (JStr []))
  ++ u " · " ++ format (dict_get ev (u "desc") (JStr [])).

Definition world_lines (world_events : list dict) : list str :=
  world_line <$> slice_to 8 world_events.

Definition _build_world_context (world_events : list dict) : str :=
  match world_events with
  | [] => u "(无世界事件)"
  | _ => join nl (world_lines world_events)
  end.

(** [f"{m.role}: {m.content}"] *)
Definition chat_line (m : ChatMessage) : str := role m ++ u ": " ++ content m.

Definition system_user (system user : str) : list Message :=
  [ {| msg_role := u "system"; msg_content := system |};
    {| msg_role := u "user"; msg_content := user |} ].

(** [resp.choices[0].message.content] *)
Definition first_content (resp : Completion) : result (option str) :=
  let* choice := index (choices resp) 0 in Ok (message_content choice).

(** *** [POST /api/suggestions] *)

Definition suggestions_system : str :=
  u "你是插话建议生成器。根据世界事件与最近对话，给出短小、有暗示性、可点击的台词建议。"
  ++ u "要求：每条不超过16字，语义多样，有行动/情绪/信息差。只返回 JSON 对象，键为 suggestions。".

Definition suggestions_user (req : SuggestionRequest) (n : Z) : str :=
  let world_ctx := _build_world_context (sug_world_events req) in
  let chat_tail := join nl (chat_line <$> slice_from (-8) (sug_chat req)) in
  u "世界事件:" ++ nl ++ world_ctx ++ nl ++ nl ++ u "最近对话:" ++ nl ++ chat_tail ++ nl ++ nl
  ++ u "请生成 " ++ str_of_int n ++ u " 条中文插话建议。".

Definition suggestions_args (env : Env) (req : SuggestionRequest) (n : Z) : CompletionArgs :=
  {| model := MODEL_DEFAULT env;
     messages := system_user suggestions_system (suggestions_user req n);
     response_format := Some (u "json_object");
     temperature := float_0_7;
     max_tokens := 200 |}.

(** The body of the [try] block. *)
Definition suggestions_try (client : Client) (args : CompletionArgs) (n : Z)
  : result SuggestionResponse :=
  let* resp := create client args in
  let* c := first_content resp in
  let content := str_or c (u "{}") in
  let* data := json_loads content in
  let* suggestions := json_get data (u "suggestions") in
  match suggestions with
  | JList l =>
    let suggestions := slice_to n ((fun s => slice_to 30 (py_str s)) <$> l) in
    Ok {| suggestions := suggestions |}
  | _ => Raise (ValueError (u "bad suggestions"))
  end.

Definition api_suggestions (env : Env) (req : SuggestionRequest) : result SuggestionResponse :=
  let client := get_openai_client env in
  let n := Z.max 1 (Z.min 8 (n req)) in
  match client with
  | None => Ok {| suggestions := _fallback_suggestions n |}
  | Some client =>
    try_except (suggestions_try client (suggestions_args env req n) n)
      (fun e => Ok {| suggestions := _fallback_suggestions n |})
  end.

(** *** [POST /api/chat] *)

Definition chat_system : str :=
  u "你是群聊中的 NPC 回复生成器。要求：" ++ nl
  ++ u "- 语气自然简短（<= 30 字），不剧透，不强设定。" ++ nl
  ++ u "- 优先参考左栏“世界事件/命运主线”，保持一致性。" ++ nl
  ++ u "- 若玩家插话偏离命运，也要温和接住并暗示纠偏。".

Definition chat_user (req : ChatRequest) (player_msg : str) : str :=
  let world_ctx := _build_world_context (chat_world_events req) in
  let chat_tail := join nl (chat_line <$> slice_from (-10) (chat_chat req)) in
  u "世界事件（命运主线摘要）：" ++ nl ++ world_ctx ++ nl ++ nl
  ++ u "最近对话（含玩家）：" ++ nl ++ chat_tail ++ nl ++ nl
  ++ u "玩家最新发言：" ++ player_msg ++ nl
  ++ u "请给出 NPC 的下一句简短中文回复。".

Definition chat_args (env : Env) (req : ChatRequest) (player_msg : str) : CompletionArgs :=
  {| model := MODEL_DEFAULT env;
     messages := system_user chat_system (chat_user req player_msg);
     response_format := None;
     temperature := float_0_6;
     max_tokens := 80 |}.

Definition chat_try (client : Client) (args : CompletionArgs) : result ChatResponse :=
  let* resp := create client args in
  let* c := first_content resp in
  match c with
  | Some text => Ok {| reply := strip text |}
  | None => Raise AttributeError
  end.

Definition api_chat (env : Env) (req : ChatRequest) : result ChatResponse :=
  let client := get_openai_client env in
  let player_msg := match player_message req with Some m => m | None => [] end in
  match client with
  | None =>
    let reply := u "我听见了，但风暴不会等人。" in
    let reply :=
      match player_msg with
      | _ :: _ => u "明白：" ++ player_msg ++ u "。但命运仍在推进。"
      | [] => reply
      end in
    Ok {| reply := reply |}
  | Some client =>
    try_except (chat_try client (chat_args env req player_msg))
      (fun _ => Ok {| reply := u "先稳住阵脚，按既定路线走。" |})
  end.

(** *** [POST /api/voice] *)

Definition voice_system : str :=
  u "你是事件微扰生成器。输入为玩家的语音转写（文本），输出为一个微小世界事件。"
  ++ u "要求输出 JSON：{t,title,desc}。事件需细微但可感（如人群情绪、环境声响、视线变化）。".

Definition voice_user (req : VoiceRequest) : str :=
  let world_ctx := _build_world_context (voice_world_events req) in
  u "已知世界事件：" ++ nl ++ world_ctx ++ nl ++ nl
  ++ u "玩家语音转写：" ++ transcript req ++ nl
  ++ u "请生成一个新的细微世界事件。".

Definition voice_args (env : Env) (req : VoiceRequest) : CompletionArgs :=
  {| model := MODEL_DEFAULT env;
     messages := system_user voice_system (voice_user req);
     response_format := Some (u "json_object");
     temperature := float_0_7;
     max_tokens := 120 |}.

(** The [{"t": ..., "title": ..., "desc": ...}] literal. *)
Definition event (t title desc : str) : dict :=
  [ (u "t", JStr t); (u "title", JStr title); (u "desc", JStr desc) ].

(** The first statement of the [try] block: the call and [json.loads]. *)
Definition voice_data (client : Client) (args : CompletionArgs) : result json :=
  let* resp := create client args in
  let* c := first_content resp in
  json_loads (str_or c (u "{}")).

(** The rest of the [try] block. *)
Definition voice_fields (data : json) : result VoiceResponse :=
  let* vt := json_get data (u "t") in
  let t := py_str (py_or vt (JStr (u "此刻"))) in
  let* vtitle := json_get data (u "title") in
  let title := py_str (py_or vtitle (JStr (u "微弱回声"))) in
  let* vdesc := json_get data (u "desc") in
  let desc := py_str (py_or vdesc (JStr (u "空气里浮起一阵细响，又迅速归于平静。"))) in
  Ok {| world_event := event t title desc |}.

Definition voice_try (client : Client) (args : CompletionArgs) : result VoiceResponse :=
  let* data := voice_data client args in
  voice_fields data.

Definition api_voice (env : Env) (req : VoiceRequest) : result VoiceResponse :=
  let client := get_openai_client env in
  match client with
  | None =>
    Ok {| world_event :=
            event (u "此刻") (u "低语如潮") (u "短暂的嗡鸣压过了争执，众人沉默片刻。") |}
  | Some client =>
    try_except (voice_try client (voice_args env req))
      (fun _ =>
         Ok {| world_event :=
                 event (u "此刻") (u "风停一瞬")
                   (u "像是被谁按下了暂停键，所有人都稍稍屏住了气。") |})
  end.

(** *** Routing *)

Inductive Request :=
  | PostSuggestions (req : SuggestionRequest)
  | PostChat (req : ChatRequest)
  | PostVoice (req : VoiceRequest).

Inductive Response :=
  | SuggestionsBody (r : SuggestionResponse)
  | ChatBody (r : ChatResponse)
  | VoiceBody (r : VoiceResponse).

Definition map_result {A B} (f : A -> B) (r : result A) : result B :=
  let* a := r in Ok (f a).

(** The three [@app.post] routes. *)
Definition route (env : Env) (r : Request) : result Response :=
  match r with
  | PostSuggestions req => map_result SuggestionsBody (api_suggestions env req)
  | PostChat req => map_result ChatBody (api_chat env req)
  | PostVoice req => map_result VoiceBody (api_voice env req)
  end.

(** The [try] block the request runs when a client is configured. *)
Definition provider_path (env : Env) (client : Client) (r : Request) : result Response :=
  match r with
  | PostSuggestions req =>
    let n := Z.max 1 (Z.min 8 (n req)) in
    map_result SuggestionsBody (suggestions_try client (suggestions_args env req n) n)
  | PostChat req =>
    let player_msg := match player_message req with Some m => m | None => [] end in
    map_result ChatBody (chat_try client (chat_args env req player_msg))
  | PostVoice req =>
    map_result VoiceBody (voice_try client (voice_args env req))
  end.

(** The fallback value the specification documents for a failed
    provider path: the canned pool, one fixed sentence, one fixed event. *)
Definition documented_fallback (r : Request) : Response :=
  match r with
  | PostSuggestions req =>
    SuggestionsBody {| suggestions := _fallback_suggestions (Z.max 1 (Z.min 8 (n req))) |}
  | PostChat _ => ChatBody {| reply := u "先稳住阵脚，按既定路线走。" |}
  | PostVoice _ =>
    VoiceBody {| world_event :=
      event (u "此刻") (u "风停一瞬") (u "像是被谁按下了暂停键，所有人都稍稍屏住了气。") |}
  end.

(** [req] with another count. *)
Definition with_n (req : SuggestionRequest) (k : Z) : SuggestionRequest :=
  {| sug_chat := sug_chat req; sug_world_events := sug_world_events req; n := k |}.

(** The three fields of a generated world event, the key of each and
    the text [api_voice] puts in when the parsed value is falsy. *)
Inductive field := Ft | Ftitle | Fdesc.

Definition field_key (f : field) : str :=
  match f with
  | Ft => u "t"
  | Ftitle => u "title"
  | Fdesc => u "desc"
  end.

Definition field_default (f : field) : str :=
  match f with
  | Ft => u "此刻"
  | Ftitle => u "微弱回声"
  | Fdesc => u "空气里浮起一阵细响，又迅速归于平静。"
  end.

(** A field of the answer as a function of the parsed object alone. *)
Definition field_value (d : dict) (f : field) : str :=
  match dict_lookup d (field_key f) with
  | None => field_default f
  | Some v => if truthy v then py_str v else field_default f
  end.

(** The key is missing or its value is falsy. *)
Definition falsy_or_absent (o : option json) : bool :=
  match o with
  | None => true
  | Some v => negb (truthy v)
  end.

(** The event answered when the whole [try] block fails. *)
Definition voice_failure_event : dict :=
  event (u "此刻") (u "风停一瞬") (u "像是被谁按下了暂停键，所有人都稍稍屏住了气。").

(** *** Definitions for the further properties *)

(** [env] with another outcome of the optional import. *)
Definition with_client (env : Env) (c : option Client) : Env :=
  {| getenv := getenv env; OpenAI := c |}.

(** The one call a request makes when a client is configured. *)
Definition request_args (env : Env) (r : Request) : CompletionArgs :=
  match r with
  | PostSuggestions req => suggestions_args env req (Z.max 1 (Z.min 8 (n req)))
  | PostChat req =>
    chat_args env req (match player_message req with Some m => m | None => [] end)
  | PostVoice req => voice_args env req
  end.

(** The part of a request the prompt can show: the last chat turns and
    the events at the first eight positions. *)
Definition suggestion_window (req : SuggestionRequest) : SuggestionRequest :=
  {| sug_chat := slice_from (-8) (sug_chat req);
     sug_world_events := slice_to 8 (sug_world_events req);
     n := n req |}.

Definition chat_window (req : ChatRequest) : ChatRequest :=
  {| chat_chat := slice_from (-10) (chat_chat req);
     chat_world_events := slice_to 8 (chat_world_events req);
     player_message := player_message req |}.

(** A voice request with another chat history and only its first eight
    events. *)
Definition voice_window (req : VoiceRequest) (history : list ChatMessage) : VoiceRequest :=
  {| transcript := transcript req;
     voice_chat := history;
     voice_world_events := slice_to 8 (voice_world_events req) |}.

(** Neither the first nor the last character is whitespace. *)
Definition trimmed (s : str) : bool :=
  match head s, list.last s with
  | Some a, Some b => negb (isspace a) && negb (isspace b)
  | _, _ => true
  end.

(** The event answered when no client is configured. *)
Definition voice_canned_event : dict :=
  event (u "此刻") (u "低语如潮") (u "短暂的嗡鸣压过了争执，众人沉默片刻。").

(** The number of newline characters of a text. *)
Definition newlines (s : str) : nat := length (filter (fun c => c = 10%N) s).

(** The parsed document is an object holding a list under
    [suggestions]. *)
Definition has_suggestion_list (data : json) : bool :=
  match data with
  | JDict d =>
    match dict_lookup d (u "suggestions") with
    | Some (JList _) => true
    | _ => false
    end
  | _ => false
  end.

(** *** The static page *)

Definition STATIC_DIR : str := u "/workspace".

(** [os.path.join(a, b)] on POSIX: an absolute [b] replaces [a];
    otherwise the two are put together with one separator between. *)
Definition is_slash (c : option codepoint) : bool :=
  match c with
  | Some c => (c =? 47)%N
  | None => false
  end.

Definition path_join (a b : str) : str :=
  if is_slash (head b) then b
  else if bool_decide (a = []) || is_slash (list.last a) then a ++ b
  else a ++ u "/" ++ b.

(** What the handlers ask of the file system. *)
Record FileSystem := { isfile : str -> bool }.

(** What [serve_prototype] gives: the file response it returns or the
    [HTTPException] it raises. *)
Inductive served :=
  | FileResponse (path : str)
  | HTTPException (status_code : Z) (detail : str).

Definition serve_prototype (fs : FileSystem) : served :=
  let path := path_join STATIC_DIR (u "prototype-3col.html") in
  if negb (isfile fs path) then HTTPException 404 (u "prototype not found")
  else FileResponse path.

(** The [url] of the [RedirectResponse] of [root_redirect]. *)
Definition root_redirect : str := u "/prototype-3col.html".

(** *** Definitions for the revised statements *)

(** The parsed document is a JSON object. *)
Definition is_object (data : json) : bool :=
  match data with
  | JDict _ => true
  | _ => false
  end.

(** What the specification has printed for the key [k] of an event:
    the text of its value, or [missing] when the event lacks the key. *)
Definition shown (ev : dict) (k missing : str) : str :=
  match dict_lookup ev k with
  | Some v => py_str v
  | None => missing
  end.

(** The line "- {t} · {title} · {desc}" of the specification, a missing
    [t] reading "?" and a missing [title] or [desc] reading as the empty
    string; to be compared with [world_line], which is the source's. *)
Definition documented_line (ev : dict) : str :=
  u "- " ++ shown ev (u "t") (u "?")
  ++ u " · " ++ shown ev (u "title") []
  ++ u " · " ++ shown ev (u "desc") [].

(** ** Properties *)

(** *** The runtime model on small inputs *)

Example u_ascii : u "run" = [114; 117; 110]%N.
Proof. reflexivity. Qed.

Example u_cjk : u "此刻" = [27492; 21051]%N.
Proof. reflexivity. Qed.

Example u_middle_dot : u " · " = [32; 183; 32]%N.
Proof. reflexivity. Qed.

Example str_of_int_examples :
  str_of_int 0 = u "0" /\ str_of_int 42 = u "42" /\ str_of_int (-7) = u "-7".
Proof. repeat split. Qed.

Example slice_examples :
  slice_to 2 [1; 2; 3] = [1; 2] /\ slice_to 8 [1; 2; 3] = [1; 2; 3]
  /\ slice_from (-2) [1; 2; 3] = [2; 3] /\ slice_from (-8) [1; 2; 3] = [1; 2; 3].
Proof. repeat split. Qed.

Example strip_example : strip (u "  a b
") = u "a b".
Proof. reflexivity. Qed.

(** *** Slices *)

Lemma length_slice_to {A} (k : Z) (l : list A) :
  (0 <= k)%Z -> length (slice_to k l) = Nat.min (Z.to_nat k) (length l).
Proof.
  intros Hk. unfold slice_to.
  destruct (Z.ltb_spec k 0); [lia|]. apply length_take.
Qed.

Lemma slice_to_nonneg {A} (k : Z) (l : list A) :
  (0 <= k)%Z -> slice_to k l = take (Z.to_nat k) l.
Proof. intros Hk. unfold slice_to. destruct (Z.ltb_spec k 0); [lia|done]. Qed.

(** *** The handlers never raise *)

(** Split a handler on the client and on the outcome of its [try] block. *)
Ltac handler_cases :=
  unfold api_suggestions, api_chat, api_voice;
  match goal with
  | |- context [get_openai_client ?env] =>
    destruct (get_openai_client env) as [client|] eqn:Hclient
  end;
  [ unfold try_except;
    match goal with
    | |- context [match ?body with Ok _ => _ | Raise _ => _ end] =>
      destruct body as [resp|e] eqn:Htry
    end
  | ].

(** Run the next statement of a [try] block whose outcome [H] gives. *)
Ltac step H := rewrite H; cbn [bind].

Lemma api_suggestions_ok env req :
  exists resp, api_suggestions env req = Ok resp.
Proof. handler_cases; eauto. Qed.

Lemma api_chat_ok env req : exists resp, api_chat env req = Ok resp.
Proof. handler_cases; eauto. Qed.

Lemma api_voice_ok env req : exists resp, api_voice env req = Ok resp.
Proof. handler_cases; eauto. Qed.

Lemma route_status env r : http_status (route env r) = 200%Z.
Proof.
  destruct r as [req|req|req]; simpl.
  - destruct (api_suggestions_ok env req) as [resp ->]. done.
  - destruct (api_chat_ok env req) as [resp ->]. done.
  - destruct (api_voice_ok env req) as [resp ->]. done.
Qed.

Lemma map_result_raise {A B} (f : A -> B) (r : result A) e :
  map_result f r = Raise e -> r = Raise e.
Proof. destruct r; simpl; congruence. Qed.

Lemma raising_try_gives_fallback env client r e :
  get_openai_client env = Some client ->
  provider_path env client r = Raise e ->
  route env r = Ok (documented_fallback r).
Proof.
  intros Hc Hraise.
  destruct r as [req|req|req]; simpl in *; apply map_result_raise in Hraise.
  - unfold api_suggestions. rewrite Hc, Hraise. done.
  - unfold api_chat. rewrite Hc, Hraise. done.
  - unfold api_voice. rewrite Hc, Hraise. done.
Qed.

Lemma voice_fields_not_object (data : json) :
  is_object data = false -> voice_fields data = Raise AttributeError.
Proof. by destruct data. Qed.

Lemma suggestions_shape_raises (data : json) (k : Z) :
  has_suggestion_list data = false ->
  exists e,
    (let* suggestions := json_get data (u "suggestions") in
     match suggestions with
     | JList l =>
       Ok {| suggestions := slice_to k ((fun s => slice_to 30 (py_str s)) <$> l) |}
     | _ => Raise (ValueError (u "bad suggestions"))
     end) = Raise e.
Proof.
  intros Hshape. destruct data as [| | | | |l|d]; try by eexists.
  unfold json_get, dict_get. cbn [bind]. simpl in Hshape.
  destruct (dict_lookup d (u "suggestions")) as [[]|]; try discriminate; by eexists.
Qed.

(** C1. When a provider client is configured and the provider call or
    the reading of its answer raises, each of the three generation
    endpoints answers its documented fallback value, with status 200.
    The causes are spelled out on the client and the decoder: the call
    [create] raises; the completion has no choice ([IndexError]); on
    [/api/chat] the content is [None] ([AttributeError]); on the JSON
    routes [json.loads] raises, or the parsed document has not the shape
    read from it (no object: [AttributeError]; on [/api/suggestions] no
    list under [suggestions]: [ValueError]). *)
Theorem provider_failure_yields_fallback env client r resp (c : option str) data e :
  get_openai_client env = Some client ->
  create client (request_args env r) = Raise e
  \/ create client (request_args env r) = Ok resp
     /\ (first_content resp = Raise e
         \/ first_content resp = Ok c
            /\ match r with
               | PostChat _ => c = None
               | PostSuggestions _ =>
                 json_loads (str_or c (u "{}")) = Raise e
                 \/ json_loads (str_or c (u "{}")) = Ok data
                    /\ has_suggestion_list data = false
               | PostVoice _ =>
                 json_loads (str_or c (u "{}")) = Raise e
                 \/ json_loads (str_or c (u "{}")) = Ok data
                    /\ is_object data = false
               end) ->
  route env r = Ok (documented_fallback r) /\ http_status (route env r) = 200%Z.
Proof.
  intros Hc Hfail. split; [|apply route_status].
  assert (Hraise : exists e', provider_path env client r = Raise e').
  { destruct r as [req|req|req]; cbn [request_args] in Hfail; cbn [provider_path];
      unfold suggestions_try, chat_try, voice_try, voice_data;
      (destruct Hfail as [Hcall|[Hcall [Hfirst|[Hfirst Hread]]]];
       [step Hcall; by eexists|step Hcall; step Hfirst; by eexists|]);
      step Hcall; step Hfirst.
    - destruct Hread as [Hloads|[Hloads Hshape]]; step Hloads; [by eexists|].
      destruct (suggestions_shape_raises data (Z.max 1 (Z.min 8 (n req))) Hshape) as [e' He'].
      exists e'. unfold map_result. by rewrite He'.
    - subst c. by eexists.
    - destruct Hread as [Hloads|[Hloads Hshape]]; step Hloads; [by eexists|].
      rewrite (voice_fields_not_object data Hshape). by eexists. }
  destruct Hraise as [e' He']. by apply (raising_try_gives_fallback env client r e').
Qed.

(** *** Suggestions: count, pool and lengths *)

Lemma base_length : length base = 6.
Proof. reflexivity. Qed.

Lemma base_short : Forall (fun s : str => length s <= 30) base.
Proof. unfold base. repeat (constructor; [vm_compute; lia|]). constructor. Qed.

Lemma base_NoDup : NoDup base.
Proof. apply (bool_decide_unpack _). vm_compute. exact I. Qed.

Lemma fallback_suggestions_take (k : Z) :
  _fallback_suggestions k = take (Z.to_nat (Z.max 1 (Z.min k 6))) base.
Proof. unfold _fallback_suggestions. rewrite base_length. apply slice_to_nonneg. lia. Qed.

Lemma fallback_suggestions_length (k : Z) :
  Z.of_nat (length (_fallback_suggestions k)) = Z.max 1 (Z.min k 6).
Proof. rewrite fallback_suggestions_take, length_take, base_length. lia. Qed.

Lemma suggestions_try_shape client args k resp :
  (0 <= k)%Z ->
  suggestions_try client args k = Ok resp ->
  (Z.of_nat (length (suggestions resp)) <= k)%Z
  /\ Forall (fun s : str => length s <= 30) (suggestions resp).
Proof.
  intros Hk. unfold suggestions_try.
  destruct (create client args) as [r|]; simpl; [|discriminate].
  destruct (first_content r) as [c|]; simpl; [|discriminate].
  destruct (json_loads _) as [data|]; simpl; [|discriminate].
  destruct (json_get data _) as [v|]; simpl; [|discriminate].
  destruct v; try discriminate. intros [= <-]. simpl.
  rewrite slice_to_nonneg by done. split.
  - rewrite length_take. lia.
  - apply Forall_take, Forall_fmap, Forall_forall. intros x _. simpl.
    rewrite slice_to_nonneg by done. rewrite length_take. lia.
Qed.

(** C2. Whatever integer [n] the request carries, the handler works with
    [max(1, min(8, n))]: that value selects the canned entries, is the
    number asked of the provider and bounds the list returned, so the
    request behaves as the request carrying the clamped value. *)
Theorem effective_count_is_clamped env req :
  let k := Z.max 1 (Z.min 8 (n req)) in
  api_suggestions env req =
    match get_openai_client env with
    | None => Ok {| suggestions := _fallback_suggestions k |}
    | Some client =>
      try_except (suggestions_try client (suggestions_args env req k) k)
        (fun _ => Ok {| suggestions := _fallback_suggestions k |})
    end
  /\ k = (if (n req <? 1)%Z then 1%Z else if (8 <? n req)%Z then 8%Z else n req)
  /\ (1 <= k <= 8)%Z
  /\ api_suggestions env (with_n req k) = api_suggestions env req
  /\ exists resp, api_suggestions env req = Ok resp
       /\ (Z.of_nat (length (suggestions resp)) <= k)%Z.
Proof.
  intros k. split; [reflexivity|]. split.
  { subst k. destruct (Z.ltb_spec (n req) 1), (Z.ltb_spec 8 (n req)); lia. }
  split; [lia|]. split.
  { unfold api_suggestions, with_n; simpl.
    replace (Z.max 1 (Z.min 8 k)) with k by lia. reflexivity. }
  subst k. handler_cases.
  - exists resp. split; [done|].
    eapply suggestions_try_shape in Htry; [tauto|lia].
  - eexists. split; [done|]. simpl. rewrite fallback_suggestions_length. lia.
  - eexists. split; [done|]. simpl. rewrite fallback_suggestions_length. lia.
Qed.

(** C3 (as amended). With no provider client the response holds exactly
    [min(k, 6)] suggestions, where [k = max(1, min(8, n))] is the
    clamped count (so [min(n, 6)] for [n >= 1] and one entry for
    [n <= 0]); they are the first entries of the six-entry pool, in its
    order and without repetition, and the response depends on nothing
    but [n]. *)
Theorem no_provider_suggestions_prefix env env' req req' :
  get_openai_client env = None ->
  get_openai_client env' = None ->
  n req' = n req ->
  let k := Z.max 1 (Z.min 8 (n req)) in
  api_suggestions env req = Ok {| suggestions := take (Z.to_nat (Z.min k 6)) base |}
  /\ Z.of_nat (length (take (Z.to_nat (Z.min k 6)) base)) = Z.min k 6
  /\ Z.min k 6 = Z.max 1 (Z.min (n req) 6)
  /\ length base = 6
  /\ NoDup (take (Z.to_nat (Z.min k 6)) base)
  /\ api_suggestions env' req' = api_suggestions env req.
Proof.
  intros Hc Hc' Hn k.
  assert (Hk : Z.max 1 (Z.min k 6) = Z.min k 6) by lia.
  split.
  { unfold api_suggestions. rewrite Hc. fold k.
    rewrite fallback_suggestions_take, Hk. done. }
  split; [rewrite length_take, base_length; lia|].
  split; [lia|]. split; [apply base_length|]. split.
  { eapply sublist_NoDup; [apply base_NoDup|apply sublist_take]. }
  unfold api_suggestions. rewrite Hc, Hc', Hn. done.
Qed.

(** C4. Every string of every [/api/suggestions] response has at most 30
    characters: on the provider path each element is cut to 30, and the
    canned pool (used without a provider and after a failure) holds no
    longer string. *)
Theorem suggestions_at_most_30_chars env req :
  exists resp, api_suggestions env req = Ok resp
    /\ Forall (fun s : str => length s <= 30) (suggestions resp).
Proof.
  assert (Hfb : forall k, Forall (fun s : str => length s <= 30) (_fallback_suggestions k)).
  { intros k. rewrite fallback_suggestions_take. apply Forall_take, base_short. }
  handler_cases.
  - exists resp. split; [done|]. eapply suggestions_try_shape in Htry; [tauto|lia].
  - eexists. split; [done|apply Hfb].
  - eexists. split; [done|apply Hfb].
Qed.

(** C5. With no provider client, [/api/chat] answers the fixed sentence
    when [player_message] is absent or empty, and otherwise the fixed
    template around the player's message, embedded unchanged. *)
Theorem no_provider_chat_reply env req :
  get_openai_client env = None ->
  api_chat env req =
    Ok {| reply :=
      match player_message req with
      | None | Some [] => u "我听见了，但风暴不会等人。"
      | Some m => u "明白：" ++ m ++ u "。但命运仍在推进。"
      end |}.
Proof.
  intros Hc. unfold api_chat. rewrite Hc.
  destruct (player_message req) as [[|c m]|]; reflexivity.
Qed.

(** *** Voice: the two kinds of fallback *)

Lemma or_default_value (d : dict) (f : field) :
  py_str (py_or (dict_get d (field_key f) JNull) (JStr (field_default f))) = field_value d f.
Proof.
  unfold field_value, dict_get, py_or.
  destruct (dict_lookup d (field_key f)) as [v|]; [|done].
  destruct (truthy v); done.
Qed.

Lemma voice_fields_dict (d : dict) :
  voice_fields (JDict d) =
    Ok {| world_event := event (field_value d Ft) (field_value d Ftitle) (field_value d Fdesc) |}.
Proof.
  unfold voice_fields, json_get, bind.
  rewrite <- (or_default_value d Ft), <- (or_default_value d Ftitle),
    <- (or_default_value d Fdesc).
  unfold field_key, field_default. reflexivity.
Qed.

Lemma voice_fields_not_dict (v : json) :
  (forall d, v <> JDict d) -> voice_fields v = Raise AttributeError.
Proof. intros Hv. destruct v; try reflexivity. by destruct (Hv d). Qed.

Lemma api_voice_provider env client req :
  get_openai_client env = Some client ->
  api_voice env req =
    Ok {| world_event :=
      match voice_data client (voice_args env req) with
      | Ok (JDict d) => event (field_value d Ft) (field_value d Ftitle) (field_value d Fdesc)
      | _ => voice_failure_event
      end |}.
Proof.
  intros Hc. unfold api_voice, voice_try. rewrite Hc.
  destruct (voice_data client _) as [data|e]; simpl; [|done].
  destruct data; try reflexivity. by rewrite voice_fields_dict.
Qed.

Lemma event_lookup (f : field) (t title desc : str) :
  dict_lookup (event t title desc) (field_key f)
  = Some (JStr match f with Ft => t | Ftitle => title | Fdesc => desc end).
Proof. destruct f; reflexivity. Qed.

(** C6 (as amended). On the provider path [/api/voice] has two
    fallbacks.  When the call [create] raises, the completion has no
    choice, [json.loads] raises or the document is no object, the
    answer is one fixed event.  When an object was parsed, each of [t],
    [title], [desc] is settled by its own key alone: a missing key (or a
    falsy value) gives that field's default, "此刻" for [t], and for
    [title] and [desc] each its own text.  The default title and
    description differ from those of the fixed failure event, so the two
    events differ; the text for [t] is "此刻" in both. *)
Theorem voice_two_fallbacks env client req (d0 : dict) (f0 : field) :
  get_openai_client env = Some client ->
  api_voice env req =
    Ok {| world_event :=
      match create client (voice_args env req) with
      | Raise _ => voice_failure_event
      | Ok resp =>
        match first_content resp with
        | Raise _ => voice_failure_event
        | Ok c =>
          match json_loads (str_or c (u "{}")) with
          | Ok (JDict d) =>
            event (field_value d Ft) (field_value d Ftitle) (field_value d Fdesc)
          | _ => voice_failure_event
          end
        end
      end |}
  /\ field_value d0 f0 =
     match dict_lookup d0 (field_key f0) with
     | None => field_default f0
     | Some v => if truthy v then py_str v else field_default f0
     end
  /\ Forall (fun f => field_value [] f = field_default f) [Ft; Ftitle; Fdesc]
  /\ field_default Ft = u "此刻"
  /\ field_default Ftitle <> field_default Fdesc
  /\ dict_lookup voice_failure_event (field_key Ftitle) <> Some (JStr (field_default Ftitle))
  /\ dict_lookup voice_failure_event (field_key Fdesc) <> Some (JStr (field_default Fdesc))
  /\ dict_lookup voice_failure_event (field_key Ft) = Some (JStr (field_default Ft))
  /\ event (field_default Ft) (field_default Ftitle) (field_default Fdesc) <> voice_failure_event.
Proof.
  intros Hc. split.
  { rewrite (api_voice_provider env client req Hc). unfold voice_data.
    destruct (create client _) as [resp|]; cbn [bind]; [|done].
    by destruct (first_content resp) as [c|]. }
  split; [reflexivity|].
  split; [by repeat constructor|]. split; [done|].
  repeat split; first [reflexivity | vm_compute; discriminate].
Qed.

(** C9. On the provider path a field of the parsed object is replaced by
    its default whenever the value is falsy or the key is absent: absent,
    [null], the empty string, [0] and [false] all count, so a returned
    title of the empty string gives the default title. *)
Theorem voice_default_on_falsy env client req (d : dict) (f : field) :
  get_openai_client env = Some client ->
  voice_data client (voice_args env req) = Ok (JDict d) ->
  falsy_or_absent (dict_lookup d (field_key f)) = true ->
  (exists resp, api_voice env req = Ok resp
     /\ dict_lookup (world_event resp) (field_key f) = Some (JStr (field_default f)))
  /\ Forall (fun o => falsy_or_absent o = true)
       [None; Some JNull; Some (JStr []); Some (JInt 0); Some (JBool false)].
Proof.
  intros Hc Hdata Hfalsy. split; [|by repeat constructor].
  eexists. split.
  { rewrite (api_voice_provider env client req Hc), Hdata. reflexivity. }
  cbn [world_event]. rewrite event_lookup.
  assert (Hv : field_value d f = field_default f).
  { unfold field_value. unfold falsy_or_absent in Hfalsy.
    destruct (dict_lookup d (field_key f)) as [v|]; [|done].
    destruct (truthy v); [discriminate|done]. }
  destruct f; rewrite Hv; reflexivity.
Qed.

(** *** The prompt builder *)

Lemma world_lines_length (world_events : list dict) :
  length (world_lines world_events) = Nat.min 8 (length world_events).
Proof.
  unfold world_lines. rewrite length_fmap, length_slice_to by lia. reflexivity.
Qed.

Lemma world_lines_take (world_events : list dict) :
  world_lines world_events = world_line <$> take 8 world_events.
Proof. reflexivity. Qed.

Lemma world_line_documented (ev : dict) : world_line ev = documented_line ev.
Proof.
  unfold world_line, documented_line, shown, format, dict_get.
  destruct (dict_lookup ev (u "t")), (dict_lookup ev (u "title")),
    (dict_lookup ev (u "desc")); reflexivity.
Qed.

Lemma world_lines_documented (world_events : list dict) :
  world_lines world_events = documented_line <$> take 8 world_events.
Proof.
  rewrite world_lines_take. apply list_fmap_ext. intros i ev _. apply world_line_documented.
Qed.

Lemma build_world_context_first_8 (world_events : list dict) :
  _build_world_context (take 8 world_events) = _build_world_context world_events.
Proof.
  unfold _build_world_context. rewrite !world_lines_take, take_take.
  by destruct world_events.
Qed.

(** C7. For every list of world events the prompt builder answers the
    marker "(无世界事件)" when the list is empty, and otherwise the lines
    of the events at the first eight positions, and of no others, joined
    by newlines; each line reads "- {t} · {title} · {desc}", a text
    value being printed as it is. *)
Theorem world_context_rendering (world_events : list dict) (t title desc : str) :
  _build_world_context world_events =
    match world_events with
    | [] => u "(无世界事件)"
    | _ => join nl (documented_line <$> take 8 world_events)
    end
  /\ length (documented_line <$> take 8 world_events) = Nat.min 8 (length world_events)
  /\ _build_world_context (take 8 world_events) = _build_world_context world_events
  /\ _build_world_context [event t title desc]
     = u "- " ++ t ++ u " · " ++ title ++ u " · " ++ desc.
Proof.
  split; [|split; [|split]].
  - unfold _build_world_context. rewrite world_lines_documented. by destruct world_events.
  - rewrite <- world_lines_documented. apply world_lines_length.
  - apply build_world_context_first_8.
  - reflexivity.
Qed.

(** C10. The prompt builder needs none of the keys [t], [title],
    [desc]: whatever keys the events lack, the context of a non-empty
    list is the join of one line for each of its first eight events,
    and the line of the event at position [i] reads "?" for a missing
    [t] and the empty string for a missing [title] or [desc]; the
    context of one event with no key at all is "- ? ·  · ". *)
Theorem world_context_missing_keys (world_events : list dict) (i : nat) (ev : dict) :
  world_events !! i = Some ev ->
  i < 8 ->
  _build_world_context world_events = join nl (documented_line <$> take 8 world_events)
  /\ (documented_line <$> take 8 world_events) !! i =
     Some (u "- "
           ++ match dict_lookup ev (u "t") with Some v => py_str v | None => u "?" end
           ++ u " · "
           ++ match dict_lookup ev (u "title") with Some v => py_str v | None => [] end
           ++ u " · "
           ++ match dict_lookup ev (u "desc") with Some v => py_str v | None => [] end)
  /\ length (documented_line <$> take 8 world_events) = Nat.min 8 (length world_events)
  /\ _build_world_context [ [] ] = u "- ? ·  · ".
Proof.
  intros Hev Hi. split; [|split; [|split]].
  - unfold _build_world_context. rewrite world_lines_documented.
    destruct world_events; [by rewrite lookup_nil in Hev|done].
  - by rewrite list_lookup_fmap, lookup_take_lt, Hev.
  - rewrite <- world_lines_documented. apply world_lines_length.
  - reflexivity.
Qed.

(** *** Suggestions on the provider path *)

(** C8. When the parsed document is an object whose [suggestions] value
    is a list, the [try] block succeeds whatever the elements are: every
    element (string, number, [null], boolean, nested list or object) is
    turned into text by [str], cut to 30 characters, and the list is cut
    to the effective count; the fallback is not used. *)
Theorem suggestions_elements_coerced env client req resp c (d : dict) (l : list json) :
  get_openai_client env = Some client ->
  create client (suggestions_args env req (Z.max 1 (Z.min 8 (n req)))) = Ok resp ->
  first_content resp = Ok c ->
  json_loads (str_or c (u "{}")) = Ok (JDict d) ->
  dict_lookup d (u "suggestions") = Some (JList l) ->
  suggestions_try client (suggestions_args env req (Z.max 1 (Z.min 8 (n req))))
    (Z.max 1 (Z.min 8 (n req)))
  = Ok {| suggestions :=
            take (Z.to_nat (Z.max 1 (Z.min 8 (n req)))) ((fun s => take 30 (py_str s)) <$> l) |}
  /\ api_suggestions env req
  = Ok {| suggestions :=
            take (Z.to_nat (Z.max 1 (Z.min 8 (n req)))) ((fun s => take 30 (py_str s)) <$> l) |}.
Proof.
  intros Hc Hcreate Hcontent Hloads Hsug.
  assert (Htry : suggestions_try client (suggestions_args env req (Z.max 1 (Z.min 8 (n req))))
                   (Z.max 1 (Z.min 8 (n req)))
                 = Ok {| suggestions :=
                     take (Z.to_nat (Z.max 1 (Z.min 8 (n req))))
                       ((fun s => take 30 (py_str s)) <$> l) |}).
  { unfold suggestions_try. step Hcreate. step Hcontent. step Hloads.
    unfold json_get, dict_get. step Hsug.
    rewrite slice_to_nonneg by lia. reflexivity. }
  split; [exact Htry|].
  unfold api_suggestions. rewrite Hc, Htry. reflexivity.
Qed.

(** *** Further properties: the chat reply *)

Lemma lstrip_split (s : str) :
  exists a, s = a ++ lstrip s /\ Forall (fun c => isspace c = true) a.
Proof.
  induction s as [|c s [a [Hs Ha]]]; [by exists []|].
  simpl. destruct (isspace c) eqn:Hc.
  - exists (c :: a). split; [simpl; congruence|by constructor].
  - by exists [].
Qed.

Lemma lstrip_head (s : str) (c : codepoint) : head (lstrip s) = Some c -> isspace c = false.
Proof.
  induction s as [|c' s IH]; [done|].
  simpl. destruct (isspace c') eqn:Hc; [done|]. by intros [= <-].
Qed.

Lemma lstrip_all_space (s : str) : Forall (fun c => isspace c = true) s -> lstrip s = [].
Proof. induction 1 as [|c s Hc _ IH]; [done|]. simpl. by rewrite Hc. Qed.

Lemma strip_split (s : str) :
  exists a b, s = a ++ strip s ++ b
    /\ Forall (fun c => isspace c = true) a /\ Forall (fun c => isspace c = true) b.
Proof.
  unfold strip. destruct (lstrip_split s) as (a & Hs & Ha).
  destruct (lstrip_split (rev (lstrip s))) as (b & Hr & Hb).
  exists a, (rev b). split; [|split; [done|by apply Forall_rev]].
  rewrite <- rev_app_distr, <- Hr, rev_involutive. exact Hs.
Qed.

Lemma last_rev_head {A} (l : list A) : list.last (rev l) = head l.
Proof. destruct l as [|x l]; [done|]. simpl. apply last_snoc. Qed.

Lemma strip_trimmed (s : str) : trimmed (strip s) = true.
Proof.
  unfold trimmed.
  destruct (head (strip s)) as [a|] eqn:Hhead; [|done].
  destruct (list.last (strip s)) as [b|] eqn:Hlast; [|done].
  assert (Hb : isspace b = false).
  { unfold strip in Hlast. rewrite last_rev_head in Hlast. by apply lstrip_head in Hlast. }
  assert (Ha : isspace a = false).
  { unfold strip in Hhead.
    destruct (lstrip_split (rev (lstrip s))) as (w & Hr & _).
    apply (f_equal (@rev _)) in Hr. rewrite rev_involutive, rev_app_distr in Hr.
    destruct (rev (lstrip (rev (lstrip s)))) as [|x l]; [done|].
    injection Hhead as ->. apply (lstrip_head s). by rewrite Hr. }
  by rewrite Ha, Hb.
Qed.

Lemma strip_all_space (s : str) : Forall (fun c => isspace c = true) s -> strip s = [].
Proof. intros H. unfold strip. by rewrite (lstrip_all_space s H). Qed.

Lemma chat_try_content client args resp text :
  create client args = Ok resp ->
  first_content resp = Ok (Some text) ->
  chat_try client args = Ok {| reply := strip text |}.
Proof. intros Hcreate Hcontent. unfold chat_try. step Hcreate. by step Hcontent. Qed.

(** X1. When the provider answers [/api/chat] with a text, the reply
    is that text without the whitespace around it: the text is the reply
    between two runs of whitespace, and the reply neither starts nor
    ends with a whitespace character. *)
Theorem chat_reply_is_trimmed_content env client req resp (text : str) :
  get_openai_client env = Some client ->
  create client (request_args env (PostChat req)) = Ok resp ->
  first_content resp = Ok (Some text) ->
  exists r a b,
    api_chat env req = Ok {| reply := r |}
    /\ text = a ++ r ++ b
    /\ Forall (fun c => isspace c = true) a
    /\ Forall (fun c => isspace c = true) b
    /\ trimmed r = true.
Proof.
  intros Hc Hcreate Hcontent. cbn [request_args] in Hcreate.
  destruct (strip_split text) as (a & b & Htext & Ha & Hb).
  exists (strip text), a, b. split; [|by auto using strip_trimmed].
  unfold api_chat. rewrite Hc.
  by rewrite (chat_try_content _ _ _ _ Hcreate Hcontent).
Qed.

(** X2. A provider text made of whitespace only (the empty text
    included) is answered as the empty reply; the fallback sentence is
    not used. *)
Theorem chat_blank_content_gives_empty_reply env client req resp (text : str) :
  get_openai_client env = Some client ->
  create client (request_args env (PostChat req)) = Ok resp ->
  first_content resp = Ok (Some text) ->
  Forall (fun c => isspace c = true) text ->
  api_chat env req = Ok {| reply := [] |}.
Proof.
  intros Hc Hcreate Hcontent Hblank. cbn [request_args] in Hcreate.
  unfold api_chat. rewrite Hc.
  by rewrite (chat_try_content _ _ _ _ Hcreate Hcontent), (strip_all_space _ Hblank).
Qed.

(** X3. When the provider's completion has no choice, or its first
    choice has no content, [/api/chat] answers the fixed fallback
    sentence, whatever the player's message. *)
Theorem chat_missing_content_gives_fallback env client req resp :
  get_openai_client env = Some client ->
  create client (request_args env (PostChat req)) = Ok resp ->
  choices resp = [] \/ first_content resp = Ok None ->
  api_chat env req = Ok {| reply := u "先稳住阵脚，按既定路线走。" |}.
Proof.
  intros Hc Hcreate Hnone. cbn [request_args] in Hcreate. unfold api_chat. rewrite Hc.
  unfold chat_try. step Hcreate.
  destruct Hnone as [Hnil|Hcontent].
  - unfold first_content, index. by rewrite Hnil.
  - by step Hcontent.
Qed.

Lemma template_trimmed (m : str) :
  trimmed (u "明白：" ++ m ++ u "。但命运仍在推进。") = true.
Proof.
  unfold trimmed.
  change (u "。但命运仍在推进。") with (u "。但命运仍在推进" ++ [12290%N]).
  rewrite !app_assoc, last_snoc. reflexivity.
Qed.

(** X4. Every reply of [/api/chat], on every path (no provider, provider
    answer, fallback), neither starts nor ends with whitespace. *)
Theorem chat_reply_always_trimmed env req :
  exists r, api_chat env req = Ok {| reply := r |} /\ trimmed r = true.
Proof.
  unfold api_chat. destruct (get_openai_client env) as [client|].
  - unfold try_except, chat_try.
    destruct (create client _) as [resp|]; cbn [bind]; [|by eexists].
    destruct (first_content resp) as [[text|]|]; cbn [bind]; try by eexists.
    eexists. split; [done|apply strip_trimmed].
  - destruct (player_message req) as [[|c m]|]; try by eexists.
    eexists. split; [done|]. apply (template_trimmed (c :: m)).
Qed.

(** *** Further properties: suggestions *)

Lemma suggestions_try_list client args k resp c (d : dict) (l : list json) :
  (0 <= k)%Z ->
  create client args = Ok resp ->
  first_content resp = Ok c ->
  json_loads (str_or c (u "{}")) = Ok (JDict d) ->
  dict_lookup d (u "suggestions") = Some (JList l) ->
  suggestions_try client args k
  = Ok {| suggestions := take (Z.to_nat k) ((fun s => take 30 (py_str s)) <$> l) |}.
Proof.
  intros Hk Hcreate Hcontent Hloads Hsug.
  unfold suggestions_try. step Hcreate. step Hcontent. step Hloads.
  unfold json_get, dict_get. step Hsug.
  rewrite slice_to_nonneg by done. reflexivity.
Qed.

Lemma suggestions_try_malformed client args k resp c data :
  create client args = Ok resp ->
  first_content resp = Ok c ->
  json_loads (str_or c (u "{}")) = Ok data ->
  has_suggestion_list data = false ->
  exists e, suggestions_try client args k = Raise e.
Proof.
  intros Hcreate Hcontent Hloads Hshape.
  unfold suggestions_try. step Hcreate. step Hcontent. step Hloads.
  destruct data as [| | | | |l|d]; try discriminate; try by eexists.
  unfold json_get, dict_get. cbn [bind]. simpl in Hshape.
  destruct (dict_lookup d (u "suggestions")) as [[]|]; try discriminate; by eexists.
Qed.

(** X5. [_fallback_suggestions] answers between one and six entries for
    every integer, negative ones included: exactly [max(1, min(n, 6))]
    of them, always beginning with the first entry of the pool. *)
Theorem fallback_suggestions_bounds (k : Z) :
  (1 <= Z.of_nat (length (_fallback_suggestions k)) <= 6)%Z
  /\ Z.of_nat (length (_fallback_suggestions k)) = Z.max 1 (Z.min k 6)
  /\ head (_fallback_suggestions k) = head base
  /\ _fallback_suggestions k `prefix_of` base.
Proof.
  rewrite fallback_suggestions_length. split; [lia|]. split; [done|].
  rewrite fallback_suggestions_take. split.
  - destruct (Z.to_nat (Z.max 1 (Z.min k 6))) as [|m] eqn:Hm; [lia|reflexivity].
  - apply prefix_take.
Qed.

(** X6. With no provider client, asking for more suggestions only
    extends the answer: the response for a smaller [n] is a prefix of
    the response for a larger one. *)
Theorem no_provider_suggestions_monotone env req req' :
  get_openai_client env = None ->
  (n req <= n req')%Z ->
  exists resp resp',
    api_suggestions env req = Ok resp
    /\ api_suggestions env req' = Ok resp'
    /\ suggestions resp `prefix_of` suggestions resp'.
Proof.
  intros Hc Hle. unfold api_suggestions. rewrite Hc.
  do 2 eexists. split; [done|]. split; [done|]. cbn [suggestions].
  rewrite !fallback_suggestions_take.
  set (a := Z.to_nat _). set (b := Z.to_nat _).
  assert (Hab : a <= b) by (subst a b; lia).
  replace a with (Nat.min a b) by lia.
  rewrite <- take_take. apply prefix_take.
Qed.

(** X7. When the provider's document holds a list under [suggestions],
    the response holds [min(k, len(list))] entries, [k] being the
    clamped count: fewer than asked when the list is short, and none at
    all for the empty list (the canned pool is not used to fill up). *)
Theorem provider_suggestions_count env client req resp c (d : dict) (l : list json) :
  get_openai_client env = Some client ->
  create client (request_args env (PostSuggestions req)) = Ok resp ->
  first_content resp = Ok c ->
  json_loads (str_or c (u "{}")) = Ok (JDict d) ->
  dict_lookup d (u "suggestions") = Some (JList l) ->
  exists out,
    api_suggestions env req = Ok {| suggestions := out |}
    /\ length out = Nat.min (Z.to_nat (Z.max 1 (Z.min 8 (n req)))) (length l).
Proof.
  intros Hc Hcreate Hcontent Hloads Hsug. cbn [request_args] in Hcreate.
  eexists. split.
  { unfold api_suggestions. rewrite Hc.
    rewrite (suggestions_try_list _ _ (Z.max 1 (Z.min 8 (n req))) _ _ _ _
               ltac:(lia) Hcreate Hcontent Hloads Hsug).
    reflexivity. }
  by rewrite length_take, length_fmap.
Qed.

(** X8. When the provider's document parses but is not an object with
    a list under [suggestions] (another JSON type, the key missing, or a
    value that is no list), the response is the canned pool for the
    clamped count, as with no provider. *)
Theorem malformed_suggestions_give_pool env client req resp c data :
  get_openai_client env = Some client ->
  create client (request_args env (PostSuggestions req)) = Ok resp ->
  first_content resp = Ok c ->
  json_loads (str_or c (u "{}")) = Ok data ->
  has_suggestion_list data = false ->
  api_suggestions env req
  = Ok {| suggestions := _fallback_suggestions (Z.max 1 (Z.min 8 (n req))) |}
  /\ api_suggestions (with_client env None) req = api_suggestions env req.
Proof.
  intros Hc Hcreate Hcontent Hloads Hshape. cbn [request_args] in Hcreate.
  destruct (suggestions_try_malformed _ _ (Z.max 1 (Z.min 8 (n req))) _ _ _
              Hcreate Hcontent Hloads Hshape) as [e He].
  assert (Hnone : get_openai_client (with_client env None) = None).
  { unfold get_openai_client, with_client. cbn [getenv OpenAI].
    destruct (getenv env _) as [key|]; [|done]. by destruct (bool_decide _). }
  unfold api_suggestions. rewrite Hc, Hnone, He. done.
Qed.

(** *** Further properties: what a response depends on *)

Lemma get_openai_client_with_client env c :
  get_openai_client (with_client env c)
  = match getenv env (u "OPENAI_API_KEY") with
    | Some (_ :: _) => c
    | _ => None
    end.
Proof.
  unfold get_openai_client, with_client. cbn [getenv OpenAI].
  by destruct (getenv env _) as [[|x key]|].
Qed.

Lemma route_no_client env env' r :
  get_openai_client env = None ->
  get_openai_client env' = None ->
  route env r = route env' r.
Proof.
  intros H H'. destruct r as [req|req|req]; simpl;
    unfold api_suggestions, api_chat, api_voice; by rewrite H, H'.
Qed.

(** X9. When [OPENAI_API_KEY] is unset or empty, every generation
    endpoint answers as it does without the client library: the
    response does not depend on the client at all. *)
Theorem empty_key_disables_provider env (c : option Client) r :
  getenv env (u "OPENAI_API_KEY") = None \/ getenv env (u "OPENAI_API_KEY") = Some [] ->
  get_openai_client (with_client env c) = None
  /\ route (with_client env c) r = route (with_client env None) r.
Proof.
  intros Hkey.
  assert (H : forall c', get_openai_client (with_client env c') = None).
  { intros c'. rewrite get_openai_client_with_client. by destruct Hkey as [-> | ->]. }
  split; [apply H|]. apply route_no_client; apply H.
Qed.

(** X10. A handler consults the client through one call only, the one
    with the arguments built from the request: two clients that answer
    that call alike give the same response. *)
Theorem response_depends_on_one_call env (c c' : Client) r :
  create c (request_args env r) = create c' (request_args env r) ->
  route (with_client env (Some c)) r = route (with_client env (Some c')) r.
Proof.
  intros Hcall.
  destruct r as [req|req|req]; simpl in *;
    unfold api_suggestions, api_chat, api_voice;
    rewrite !get_openai_client_with_client;
    (destruct (getenv env (u "OPENAI_API_KEY")) as [[|x key]|]; [done| |done]).
  - unfold suggestions_try.
    change (suggestions_args (with_client env (Some c)) req)
      with (suggestions_args env req).
    change (suggestions_args (with_client env (Some c')) req)
      with (suggestions_args env req).
    by rewrite Hcall.
  - unfold chat_try.
    change (chat_args (with_client env (Some c)) req) with (chat_args env req).
    change (chat_args (with_client env (Some c')) req) with (chat_args env req).
    by rewrite Hcall.
  - unfold voice_try, voice_data.
    change (voice_args (with_client env (Some c)) req) with (voice_args env req).
    change (voice_args (with_client env (Some c')) req) with (voice_args env req).
    by rewrite Hcall.
Qed.

Lemma slice_from_last_idem {A} (k : Z) (l : list A) :
  (k < 0)%Z -> slice_from k (slice_from k l) = slice_from k l.
Proof.
  intros Hk. unfold slice_from. destruct (Z.ltb_spec k 0); [|lia].
  rewrite length_drop.
  replace (length l - (length l - Z.to_nat (- k)) - Z.to_nat (- k)) with 0 by lia.
  reflexivity.
Qed.

Lemma slice_to_idem {A} (k : Z) (l : list A) :
  (0 <= k)%Z -> slice_to k (slice_to k l) = slice_to k l.
Proof.
  intros Hk. rewrite !slice_to_nonneg by done. rewrite take_take. f_equal. lia.
Qed.

Lemma build_world_context_window (world_events : list dict) :
  _build_world_context (slice_to 8 world_events) = _build_world_context world_events.
Proof.
  unfold _build_world_context, world_lines. rewrite slice_to_idem by lia.
  by destruct world_events.
Qed.

(** X11. [/api/suggestions] sees no more of a request than its last
    eight chat turns and the events at its first eight positions, and
    [/api/chat] no more than its last ten turns and first eight events:
    cutting the request down to that window leaves the response as it
    is. *)
Theorem responses_depend_on_window env sreq creq :
  api_suggestions env (suggestion_window sreq) = api_suggestions env sreq
  /\ api_chat env (chat_window creq) = api_chat env creq.
Proof.
  split.
  - unfold api_suggestions, suggestions_args, suggestions_user, suggestion_window.
    cbn [sug_chat sug_world_events n].
    by rewrite build_world_context_window, slice_from_last_idem by lia.
  - unfold api_chat, chat_args, chat_user, chat_window.
    cbn [chat_chat chat_world_events player_message].
    by rewrite build_world_context_window, slice_from_last_idem by lia.
Qed.

(** X12. [/api/voice] never reads the chat history of its request, and
    reads the events at the first eight positions only: any history
    gives the same response. *)
Theorem voice_ignores_chat env req (history : list ChatMessage) :
  api_voice env (voice_window req history) = api_voice env req.
Proof.
  unfold api_voice, voice_args, voice_user, voice_window.
  cbn [transcript voice_world_events].
  by rewrite build_world_context_window.
Qed.

(** *** Further properties: the voice event *)

Lemma str_of_int_nonempty (z : Z) : str_of_int z <> [].
Proof.
  unfold str_of_int.
  assert (H : forall d, NilZero.string_of_uint d <> EmptyString) by (by intros []).
  destruct (Z.to_int z) as [d|d]; simpl; [|done].
  specialize (H d). by destruct (NilZero.string_of_uint d).
Qed.

Lemma py_str_truthy_nonempty (v : json) :
  (forall f, float_repr f <> []) -> truthy v = true -> py_str v <> [].
Proof.
  intros Hfloat Hv. destruct v as [|[]|z|f|s|l|d]; try done.
  - apply str_of_int_nonempty.
  - apply Hfloat.
  - simpl in *. by destruct s.
Qed.

Lemma field_value_nonempty (d : dict) (f : field) :
  (forall x, float_repr x <> []) -> field_value d f <> [].
Proof.
  intros Hfloat. unfold field_value.
  destruct (dict_lookup d (field_key f)) as [v|]; [|by destruct f].
  destruct (truthy v) eqn:Hv; [by apply py_str_truthy_nonempty|by destruct f].
Qed.

(** X13. Every [/api/voice] response, on every path, is an event with
    exactly the keys [t], [title], [desc], in that order, each holding a
    non-empty string: other keys of the provider's object are dropped
    and values of other types are turned into text.  ([repr] of a
    [float] is never empty.) *)
Theorem voice_event_shape env req :
  (forall f, float_repr f <> []) ->
  exists t title desc,
    api_voice env req = Ok {| world_event := event t title desc |}
    /\ t <> [] /\ title <> [] /\ desc <> [].
Proof.
  intros Hfloat.
  destruct (get_openai_client env) as [client|] eqn:Hc.
  - rewrite (api_voice_provider env client req Hc).
    destruct (voice_data client _) as [[| | | | | |d]|e];
      try (by do 3 eexists; split; [reflexivity|]).
    do 3 eexists. split; [reflexivity|]. auto using field_value_nonempty.
  - unfold api_voice. rewrite Hc. by do 3 eexists; split; [reflexivity|].
Qed.

(** *** Further properties: a provider that fails or says nothing *)

(** X14. A failed provider call is answered like a missing provider by
    [/api/suggestions], but differently by [/api/chat] and
    [/api/voice]: their fallback after a failure is never the answer
    they give without a provider. *)
Theorem failure_against_no_provider env env' client r e :
  get_openai_client env = Some client ->
  get_openai_client env' = None ->
  provider_path env client r = Raise e ->
  match r with
  | PostSuggestions _ => route env r = route env' r
  | PostChat _ | PostVoice _ => route env r <> route env' r
  end.
Proof.
  intros Hc Hc' Hraise.
  destruct r as [req|req|req]; simpl in *; apply map_result_raise in Hraise.
  - unfold api_suggestions. by rewrite Hc, Hc', Hraise.
  - unfold api_chat. rewrite Hc, Hc', Hraise. cbn [try_except map_result bind].
    destruct (player_message req) as [[|c m]|]; intros H;
      apply (f_equal (fun x => match x with
                               | Ok (ChatBody b) => head (reply b)
                               | _ => None
                               end)) in H;
      vm_compute in H; discriminate H.
  - unfold api_voice. rewrite Hc, Hc', Hraise. cbn [try_except map_result bind].
    intros H.
    apply (f_equal (fun x => match x with
                             | Ok (VoiceBody b) => dict_lookup (world_event b) (u "title")
                             | _ => None
                             end)) in H.
    vm_compute in H. discriminate H.
Qed.

(** X15. A completion without content, or with the empty text, is read
    as the document [{}] on the JSON routes.  Given that [json.loads]
    reads that document as the empty object, [/api/suggestions] answers
    the canned pool and [/api/voice] the event of the three per-field
    defaults (not its failure event); [/api/chat], which parses nothing,
    answers its fallback sentence for a missing content and the empty
    reply for the empty text. *)
Theorem empty_content_answers env client r resp (c : option str) :
  get_openai_client env = Some client ->
  create client (request_args env r) = Ok resp ->
  first_content resp = Ok c ->
  c = None \/ c = Some [] ->
  json_loads (u "{}") = Ok (JDict []) ->
  route env r =
    Ok match r with
       | PostSuggestions req =>
         SuggestionsBody {| suggestions := _fallback_suggestions (Z.max 1 (Z.min 8 (n req))) |}
       | PostChat _ =>
         ChatBody {| reply := match c with
                              | None => u "先稳住阵脚，按既定路线走。"
                              | Some _ => []
                              end |}
       | PostVoice _ =>
         VoiceBody {| world_event :=
           event (field_default Ft) (field_default Ftitle) (field_default Fdesc) |}
       end.
Proof.
  intros Hc Hcreate Hcontent Hempty Hloads.
  assert (Hdoc : str_or c (u "{}") = u "{}") by (by destruct Hempty as [-> | ->]).
  destruct r as [req|req|req]; cbn [request_args] in Hcreate; cbn [route].
  - unfold api_suggestions. rewrite Hc. unfold suggestions_try.
    step Hcreate. step Hcontent. rewrite Hdoc. step Hloads. reflexivity.
  - unfold api_chat. rewrite Hc. unfold chat_try.
    step Hcreate. step Hcontent. by destruct Hempty as [-> | ->].
  - rewrite (api_voice_provider env client req Hc). unfold voice_data.
    step Hcreate. step Hcontent. rewrite Hdoc, Hloads. reflexivity.
Qed.

(** *** Further properties: the prompt builder *)

Lemma join_head (sep p : str) (rest : list str) :
  p <> [] -> head (join sep (p :: rest)) = head p.
Proof. intros Hp. destruct p as [|c p]; [done|]. by destruct rest. Qed.

Lemma newlines_app (a b : str) : newlines (a ++ b) = newlines a + newlines b.
Proof. unfold newlines, str, codepoint. by rewrite list.filter_app, length_app. Qed.

Lemma newlines_join (ls : list str) :
  Forall (fun l => newlines l = 0) ls ->
  newlines (join nl ls) = length ls - 1.
Proof.
  induction 1 as [|l ls Hl Hls IH]; [done|].
  destruct ls as [|l' ls]; [simpl; lia|].
  change (join nl (l :: l' :: ls)) with (l ++ nl ++ join nl (l' :: ls)).
  rewrite !newlines_app, IH, Hl. simpl. lia.
Qed.

(** X16. The context of a non-empty list of events begins with "- ",
    so it is never empty and never the text answered for the empty
    list: the marker cannot be taken for an event line. *)
Theorem world_context_of_events_starts_with_dash (world_events : list dict) :
  world_events <> [] ->
  u "- " `prefix_of` _build_world_context world_events
  /\ _build_world_context world_events <> _build_world_context [].
Proof.
  intros Hne. destruct world_events as [|ev evs]; [done|].
  assert (Hpre : u "- " `prefix_of` _build_world_context (ev :: evs)).
  { unfold _build_world_context, world_lines. rewrite slice_to_nonneg by lia.
    change (take (Z.to_nat 8) (ev :: evs)) with (ev :: take 7 evs).
    rewrite fmap_cons. unfold world_line at 1.
    destruct (world_line <$> take 7 evs) as [|l ls]; cbn [join];
      rewrite <- ?app_assoc; by eexists. }
  split; [done|]. intros Heq. rewrite Heq in Hpre.
  destruct Hpre as [k Hk]. vm_compute in Hk. discriminate Hk.
Qed.

(** X17. When no line of the events shown (those at the first eight
    positions) holds a newline, the context of a non-empty list has
    exactly one line for each event shown: the number of its newlines
    is [min(8, len(world_events)) - 1], whatever the later events hold. *)
Theorem world_context_line_count (world_events : list dict) :
  world_events <> [] ->
  Forall (fun ev => newlines (world_line ev) = 0) (take 8 world_events) ->
  S (newlines (_build_world_context world_events)) = Nat.min 8 (length world_events).
Proof.
  intros Hne Hlines. destruct world_events as [|ev evs]; [done|].
  unfold _build_world_context. rewrite newlines_join.
  - rewrite world_lines_length. simpl. lia.
  - rewrite world_lines_take. apply Forall_fmap. exact Hlines.
Qed.

(** *** Further properties: the static page *)

(** X18. [serve_prototype] looks at the one path
    [/workspace/prototype-3col.html]: it raises the 404 "prototype not
    found" exactly when that is no file and serves that very path
    otherwise; the path is the static directory followed by the address
    [root_redirect] sends to. *)
Theorem serve_prototype_404_iff_missing (fs : FileSystem) :
  (serve_prototype fs = HTTPException 404 (u "prototype not found")
   <-> isfile fs (u "/workspace/prototype-3col.html") = false)
  /\ (serve_prototype fs = FileResponse (u "/workspace/prototype-3col.html")
      <-> isfile fs (u "/workspace/prototype-3col.html") = true)
  /\ STATIC_DIR ++ root_redirect = u "/workspace/prototype-3col.html".
Proof.
  assert (Hpath : path_join STATIC_DIR (u "prototype-3col.html")
                  = u "/workspace/prototype-3col.html") by (vm_compute; reflexivity).
  unfold serve_prototype. rewrite Hpath.
  split; [|split; [|vm_compute; reflexivity]];
    destruct (isfile fs _); simpl; split; intros H; try done; discriminate H.
Qed.

End Server.

(** ** The theorems on concrete requests *)

Lemma provider_failure_yields_fallback_witness :
  (get_openai_client Double.failing_env = Some Double.failing_client
   /\ create Double.failing_client
        (request_args Double.float_repr Double.isprintable Double.failing_env
           (PostVoice Double.voice_request))
      = Raise (ProviderError (u "connection refused"))
   /\ route Double.float_repr Double.isprintable Double.json_loads Double.failing_env
        (PostVoice Double.voice_request)
      = Ok (VoiceBody {| world_event := voice_failure_event |})
   /\ http_status
        (route Double.float_repr Double.isprintable Double.json_loads Double.failing_env
           (PostVoice Double.voice_request)) = 200%Z)
  /\ (get_openai_client (Double.env_with Double.babbling_client) = Some Double.babbling_client
      /\ create Double.babbling_client
           (request_args Double.float_repr Double.isprintable
              (Double.env_with Double.babbling_client)
              (PostSuggestions (Double.suggestion_request 3)))
         = Ok {| choices := [ {| message_content := Some (u "not json") |} ] |}
      /\ first_content {| choices := [ {| message_content := Some (u "not json") |} ] |}
         = Ok (Some (u "not json"))
      /\ Double.json_loads (str_or (Some (u "not json")) (u "{}")) = Raise JSONDecodeError
      /\ route Double.float_repr Double.isprintable Double.json_loads
           (Double.env_with Double.babbling_client)
           (PostSuggestions (Double.suggestion_request 3))
         = Ok (SuggestionsBody {| suggestions := take 3 base |})
      /\ http_status
           (route Double.float_repr Double.isprintable Double.json_loads
              (Double.env_with Double.babbling_client)
              (PostSuggestions (Double.suggestion_request 3))) = 200%Z)
  /\ (get_openai_client (Double.env_with (Double.replying_client None))
      = Some (Double.replying_client None)
      /\ create (Double.replying_client None)
           (request_args Double.float_repr Double.isprintable
              (Double.env_with (Double.replying_client None))
              (PostChat (Double.chat_request (Some (u "run")))))
         = Ok {| choices := [ {| message_content := None |} ] |}
      /\ first_content {| choices := [ {| message_content := None |} ] |} = Ok None
      /\ route Double.float_repr Double.isprintable Double.json_loads
           (Double.env_with (Double.replying_client None))
           (PostChat (Double.chat_request (Some (u "run"))))
         = Ok (ChatBody {| reply := u "先稳住阵脚，按既定路线走。" |})
      /\ http_status
           (route Double.float_repr Double.isprintable Double.json_loads
              (Double.env_with (Double.replying_client None))
              (PostChat (Double.chat_request (Some (u "run"))))) = 200%Z).
Proof.
  split; [|split].
  - split; [reflexivity|]. split; [reflexivity|].
    apply (provider_failure_yields_fallback Double.float_repr Double.isprintable
             Double.json_loads Double.failing_env Double.failing_client
             (PostVoice Double.voice_request) {| choices := [] |} None JNull
             (ProviderError (u "connection refused"))); [reflexivity|].
    left. reflexivity.
  - split; [reflexivity|]. split; [reflexivity|]. split; [reflexivity|].
    split; [vm_compute; reflexivity|].
    apply (provider_failure_yields_fallback Double.float_repr Double.isprintable
             Double.json_loads (Double.env_with Double.babbling_client) Double.babbling_client
             (PostSuggestions (Double.suggestion_request 3))
             {| choices := [ {| message_content := Some (u "not json") |} ] |}
             (Some (u "not json")) JNull JSONDecodeError); [reflexivity|].
    right. split; [reflexivity|]. right. split; [reflexivity|].
    left. vm_compute. reflexivity.
  - split; [reflexivity|]. split; [reflexivity|]. split; [reflexivity|].
    apply (provider_failure_yields_fallback Double.float_repr Double.isprintable
             Double.json_loads (Double.env_with (Double.replying_client None))
             (Double.replying_client None)
             (PostChat (Double.chat_request (Some (u "run"))))
             {| choices := [ {| message_content := None |} ] |}
             None JNull AttributeError); [reflexivity|].
    right. split; [reflexivity|]. right. split; reflexivity.
Defined.

(** The claim C3 read with the submitted [n]: it fails for [n = 0], where
    one suggestion is returned and [min(0, 6) = 0]. *)
Lemma no_provider_count_is_not_min_n_6 :
  ~ (forall env req resp,
       get_openai_client env = None ->
       api_suggestions Double.float_repr Double.isprintable Double.json_loads env req = Ok resp ->
       Z.of_nat (length (suggestions resp)) = Z.min (n req) 6).
Proof.
  intros H.
  specialize (H Double.no_provider (Double.suggestion_request 0) _ eq_refl eq_refl).
  vm_compute in H. discriminate H.
Qed.

Lemma no_provider_suggestions_prefix_witness :
  get_openai_client Double.no_provider = None
  /\ get_openai_client Double.no_provider = None
  /\ n (with_n (Double.suggestion_request 7) 7) = n (Double.suggestion_request 7)
  /\ (api_suggestions Double.float_repr Double.isprintable Double.json_loads
        Double.no_provider (Double.suggestion_request 7)
      = Ok {| suggestions := take (Z.to_nat (Z.min (Z.max 1 (Z.min 8 7)) 6)) base |}
      /\ Z.of_nat (length (take (Z.to_nat (Z.min (Z.max 1 (Z.min 8 7)) 6)) base))
         = Z.min (Z.max 1 (Z.min 8 7)) 6
      /\ Z.min (Z.max 1 (Z.min 8 7)) 6 = Z.max 1 (Z.min 7 6)
      /\ length base = 6
      /\ NoDup (take (Z.to_nat (Z.min (Z.max 1 (Z.min 8 7)) 6)) base)
      /\ api_suggestions Double.float_repr Double.isprintable Double.json_loads
           Double.no_provider (with_n (Double.suggestion_request 7) 7)
         = api_suggestions Double.float_repr Double.isprintable Double.json_loads
             Double.no_provider (Double.suggestion_request 7)).
Proof.
  split; [reflexivity|]. split; [reflexivity|]. split; [reflexivity|].
  apply (no_provider_suggestions_prefix Double.float_repr Double.isprintable
           Double.json_loads Double.no_provider Double.no_provider
           (Double.suggestion_request 7) (with_n (Double.suggestion_request 7) 7));
    reflexivity.
Defined.

Lemma no_provider_chat_reply_witness :
  get_openai_client Double.no_provider = None
  /\ api_chat Double.float_repr Double.isprintable Double.no_provider
       (Double.chat_request (Some (u "run")))
     = Ok {| reply := u "明白：" ++ u "run" ++ u "。但命运仍在推进。" |}.
Proof.
  split; [reflexivity|].
  apply (no_provider_chat_reply Double.float_repr Double.isprintable Double.no_provider
           (Double.chat_request (Some (u "run")))); reflexivity.
Defined.

Example chat_reply_run :
  api_chat Double.float_repr Double.isprintable Double.no_provider
    (Double.chat_request (Some (u "run")))
  = Ok {| reply := u "明白：run。但命运仍在推进。" |}.
Proof. vm_compute. reflexivity. Qed.

Example chat_reply_absent_or_empty :
  api_chat Double.float_repr Double.isprintable Double.no_provider (Double.chat_request None)
  = Ok {| reply := u "我听见了，但风暴不会等人。" |}
  /\ api_chat Double.float_repr Double.isprintable Double.no_provider
       (Double.chat_request (Some []))
     = Ok {| reply := u "我听见了，但风暴不会等人。" |}.
Proof. split; vm_compute; reflexivity. Qed.

(** The claim C6 as stated has the per-field default texts differ from
    those of the failure event: the text for [t] does not. *)
Lemma voice_default_t_is_failure_t :
  api_voice Double.float_repr Double.isprintable Double.json_loads_more Double.failing_env
    Double.voice_request
  = Ok {| world_event :=
            event (u "此刻") (u "风停一瞬") (u "像是被谁按下了暂停键，所有人都稍稍屏住了气。") |}
  /\ api_voice Double.float_repr Double.isprintable Double.json_loads_more
       (Double.env_with (Double.replying_client (Some (u "{}")))) Double.voice_request
     = Ok {| world_event :=
               event (u "此刻") (u "微弱回声") (u "空气里浮起一阵细响，又迅速归于平静。") |}
  /\ ~ (forall f : field,
          dict_lookup voice_failure_event (field_key f) <> Some (JStr (field_default f))).
Proof.
  split; [vm_compute; reflexivity|]. split; [vm_compute; reflexivity|].
  intros H. apply (H Ft). reflexivity.
Qed.

Lemma voice_two_fallbacks_witness :
  (get_openai_client Double.failing_env = Some Double.failing_client
   /\ api_voice Double.float_repr Double.isprintable Double.json_loads Double.failing_env
        Double.voice_request
      = Ok {| world_event := voice_failure_event |})
  /\ (get_openai_client (Double.env_with Double.babbling_client) = Some Double.babbling_client
      /\ api_voice Double.float_repr Double.isprintable Double.json_loads
           (Double.env_with Double.babbling_client) Double.voice_request
         = Ok {| world_event := voice_failure_event |})
  /\ (get_openai_client Double.voicing_env
      = Some (Double.replying_client (Some Double.voice_doc))
      /\ api_voice Double.float_repr Double.isprintable Double.json_loads Double.voicing_env
           Double.voice_request
         = Ok {| world_event :=
                   event (u "黄昏") (field_default Ftitle) (field_default Fdesc) |}).
Proof.
  split; [|split]; (split; [reflexivity|]).
  - destruct (voice_two_fallbacks Double.float_repr Double.isprintable Double.json_loads
                Double.failing_env Double.failing_client Double.voice_request [] Ft eq_refl)
      as [H _].
    rewrite H. reflexivity.
  - destruct (voice_two_fallbacks Double.float_repr Double.isprintable Double.json_loads
                (Double.env_with Double.babbling_client) Double.babbling_client
                Double.voice_request [] Ft eq_refl) as [H _].
    rewrite H. vm_compute. reflexivity.
  - destruct (voice_two_fallbacks Double.float_repr Double.isprintable Double.json_loads
                Double.voicing_env (Double.replying_client (Some Double.voice_doc))
                Double.voice_request [] Ft eq_refl) as [H _].
    rewrite H. vm_compute. reflexivity.
Defined.

Example voice_partial_object :
  api_voice Double.float_repr Double.isprintable Double.json_loads Double.voicing_env
    Double.voice_request
  = Ok {| world_event :=
            event (u "黄昏") (u "微弱回声") (u "空气里浮起一阵细响，又迅速归于平静。") |}.
Proof. vm_compute. reflexivity. Qed.

Example voice_total_failure :
  api_voice Double.float_repr Double.isprintable Double.json_loads Double.failing_env
    Double.voice_request
  = Ok {| world_event :=
            event (u "此刻") (u "风停一瞬") (u "像是被谁按下了暂停键，所有人都稍稍屏住了气。") |}
  /\ api_voice Double.float_repr Double.isprintable Double.json_loads
       (Double.env_with (Double.replying_client (Some (u "not json")))) Double.voice_request
     = Ok {| world_event := voice_failure_event |}.
Proof. split; vm_compute; reflexivity. Qed.

Lemma voice_default_on_falsy_witness :
  get_openai_client Double.voicing_env = Some (Double.replying_client (Some Double.voice_doc))
  /\ voice_data Double.json_loads (Double.replying_client (Some Double.voice_doc))
       (voice_args Double.float_repr Double.isprintable Double.voicing_env Double.voice_request)
     = Ok (JDict Double.voice_parsed)
  /\ falsy_or_absent (dict_lookup Double.voice_parsed (field_key Ftitle)) = true
  /\ ((exists resp,
         api_voice Double.float_repr Double.isprintable Double.json_loads Double.voicing_env
           Double.voice_request = Ok resp
         /\ dict_lookup (world_event resp) (field_key Ftitle) = Some (JStr (field_default Ftitle)))
      /\ Forall (fun o => falsy_or_absent o = true)
           [None; Some JNull; Some (JStr []); Some (JInt 0); Some (JBool false)]).
Proof.
  split; [reflexivity|]. split; [vm_compute; reflexivity|]. split; [reflexivity|].
  apply (voice_default_on_falsy Double.float_repr Double.isprintable Double.json_loads
           Double.voicing_env (Double.replying_client (Some Double.voice_doc))
           Double.voice_request Double.voice_parsed Ftitle);
    [reflexivity|vm_compute; reflexivity|reflexivity].
Defined.

Example world_context_examples :
  _build_world_context Double.float_repr Double.isprintable [Double.storm; Double.omen]
  = u "- 黄昏 · 风暴 · 云层压低" ++ nl ++ u "- 12 · 乌鸦 · None"
  /\ _build_world_context Double.float_repr Double.isprintable [] = u "(无世界事件)"
  /\ length (world_lines Double.float_repr Double.isprintable (replicate 11 Double.storm)) = 8.
Proof. repeat split; vm_compute; reflexivity. Qed.

Lemma world_context_missing_keys_witness :
  [Double.storm; Double.untitled] !! 1 = Some Double.untitled
  /\ 1 < 8
  /\ _build_world_context Double.float_repr Double.isprintable [Double.storm; Double.untitled]
     = join nl [ u "- 黄昏 · 风暴 · 云层压低"; u "- ? ·  · 远处有光" ]
  /\ (documented_line Double.float_repr Double.isprintable
        <$> take 8 [Double.storm; Double.untitled]) !! 1
     = Some (u "- ? ·  · 远处有光").
Proof.
  split; [reflexivity|]. split; [lia|].
  destruct (world_context_missing_keys Double.float_repr Double.isprintable
              [Double.storm; Double.untitled] 1 Double.untitled eq_refl ltac:(lia))
    as (Hctx & Hline & _).
  split.
  - etrans; [exact Hctx|]. vm_compute. reflexivity.
  - etrans; [exact Hline|]. vm_compute. reflexivity.
Defined.

Example world_context_nine_events :
  _build_world_context Double.float_repr Double.isprintable
    (replicate 8 Double.untitled ++ [Double.storm])
  = join nl (replicate 8 (u "- ? ·  · 远处有光"))
  /\ _build_world_context Double.float_repr Double.isprintable [ [] ] = u "- ? ·  · ".
Proof. split; vm_compute; reflexivity. Qed.

Example world_line_untitled :
  world_line Double.float_repr Double.isprintable Double.untitled = u "- ? ·  · 远处有光".
Proof. vm_compute. reflexivity. Qed.

Lemma suggestions_elements_coerced_witness :
  get_openai_client Double.suggesting_env
  = Some (Double.replying_client (Some Double.suggestions_doc))
  /\ create (Double.replying_client (Some Double.suggestions_doc))
       (suggestions_args Double.float_repr Double.isprintable Double.suggesting_env
          (Double.suggestion_request 8) (Z.max 1 (Z.min 8 (n (Double.suggestion_request 8)))))
     = Ok {| choices := [ {| message_content := Some Double.suggestions_doc |} ] |}
  /\ first_content {| choices := [ {| message_content := Some Double.suggestions_doc |} ] |}
     = Ok (Some Double.suggestions_doc)
  /\ Double.json_loads (str_or (Some Double.suggestions_doc) (u "{}"))
     = Ok (JDict Double.suggestions_parsed)
  /\ dict_lookup Double.suggestions_parsed (u "suggestions") = Some (JList Double.suggestions_list)
  /\ (suggestions_try Double.float_repr Double.isprintable Double.json_loads
        (Double.replying_client (Some Double.suggestions_doc))
        (suggestions_args Double.float_repr Double.isprintable Double.suggesting_env
           (Double.suggestion_request 8) (Z.max 1 (Z.min 8 (n (Double.suggestion_request 8)))))
        (Z.max 1 (Z.min 8 (n (Double.suggestion_request 8))))
      = Ok {| suggestions :=
                take (Z.to_nat (Z.max 1 (Z.min 8 (n (Double.suggestion_request 8)))))
                  ((fun s => take 30 (py_str Double.float_repr Double.isprintable s))
                     <$> Double.suggestions_list) |}
      /\ api_suggestions Double.float_repr Double.isprintable Double.json_loads
           Double.suggesting_env (Double.suggestion_request 8)
         = Ok {| suggestions :=
                   take (Z.to_nat (Z.max 1 (Z.min 8 (n (Double.suggestion_request 8)))))
                     ((fun s => take 30 (py_str Double.float_repr Double.isprintable s))
                        <$> Double.suggestions_list) |}).
Proof.
  split; [reflexivity|]. split; [reflexivity|]. split; [reflexivity|].
  split; [vm_compute; reflexivity|]. split; [reflexivity|].
  apply (suggestions_elements_coerced Double.float_repr Double.isprintable Double.json_loads
           Double.suggesting_env (Double.replying_client (Some Double.suggestions_doc))
           (Double.suggestion_request 8)
           {| choices := [ {| message_content := Some Double.suggestions_doc |} ] |}
           (Some Double.suggestions_doc) Double.suggestions_parsed Double.suggestions_list);
    [reflexivity|reflexivity|reflexivity|vm_compute; reflexivity|reflexivity].
Defined.

Example suggestions_mixed_types :
  api_suggestions Double.float_repr Double.isprintable Double.json_loads
    Double.suggesting_env (Double.suggestion_request 8)
  = Ok {| suggestions :=
            [ u "7"; u "None"; u "True"; u "{'a': [1, -2]}"; u "[]"; u "别抬头";
              u "0123456789abcdefghijklmnopqrst" ] |}
  /\ api_suggestions Double.float_repr Double.isprintable Double.json_loads
       Double.suggesting_env (Double.suggestion_request 2)
     = Ok {| suggestions := [ u "7"; u "None" ] |}.
Proof. split; vm_compute; reflexivity. Qed.

Example suggestions_fallbacks :
  api_suggestions Double.float_repr Double.isprintable Double.json_loads
    Double.failing_env (Double.suggestion_request 2)
  = Ok {| suggestions := [ u "等等，先别说话，听——你听见了吗？"; u "向东转移队伍，躲开风暴眼。" ] |}
  /\ api_suggestions Double.float_repr Double.isprintable Double.json_loads
       Double.no_provider (Double.suggestion_request 0)
     = Ok {| suggestions := [ u "等等，先别说话，听——你听见了吗？" ] |}
  /\ api_suggestions Double.float_repr Double.isprintable Double.json_loads
       Double.no_provider (Double.suggestion_request 100)
     = Ok {| suggestions := base |}.
Proof. repeat split; vm_compute; reflexivity. Qed.

Example repr_examples :
  py_str Double.float_repr Double.isprintable (JList [JStr (u "it's"); JStr (u "a\b"); JStr [9%N]])
  = u "[" ++ Double.dq ++ u "it's" ++ Double.dq ++ u ", 'a\\b', '\t']"
  /\ py_str Double.float_repr Double.isprintable (JDict [ (u "k", JBool false) ])
     = u "{'k': False}"
  /\ py_str Double.float_repr (fun _ => false) (JList [JStr [233%N; 8232%N; 128512%N]])
     = u "['\xe9\u2028\U0001f600']".
Proof. repeat split; vm_compute; reflexivity. Qed.

(** ** The further properties on concrete requests *)

Lemma chat_reply_is_trimmed_content_witness :
  get_openai_client (Double.env_with (Double.replying_client (Some Double.padded_reply)))
  = Some (Double.replying_client (Some Double.padded_reply))
  /\ create (Double.replying_client (Some Double.padded_reply))
       (request_args Double.float_repr Double.isprintable
          (Double.env_with (Double.replying_client (Some Double.padded_reply)))
          (PostChat (Double.chat_request None)))
     = Ok {| choices := [ {| message_content := Some Double.padded_reply |} ] |}
  /\ first_content {| choices := [ {| message_content := Some Double.padded_reply |} ] |}
     = Ok (Some Double.padded_reply)
  /\ exists r a b,
       api_chat Double.float_repr Double.isprintable
         (Double.env_with (Double.replying_client (Some Double.padded_reply)))
         (Double.chat_request None) = Ok {| reply := r |}
       /\ Double.padded_reply = a ++ r ++ b
       /\ Forall (fun c => isspace c = true) a
       /\ Forall (fun c => isspace c = true) b
       /\ trimmed r = true.
Proof.
  split; [reflexivity|]. split; [reflexivity|]. split; [reflexivity|].
  apply (chat_reply_is_trimmed_content Double.float_repr Double.isprintable
           (Double.env_with (Double.replying_client (Some Double.padded_reply)))
           (Double.replying_client (Some Double.padded_reply)) (Double.chat_request None)
           {| choices := [ {| message_content := Some Double.padded_reply |} ] |}
           Double.padded_reply); reflexivity.
Defined.

Example chat_reply_padded :
  api_chat Double.float_repr Double.isprintable
    (Double.env_with (Double.replying_client (Some Double.padded_reply)))
    (Double.chat_request None)
  = Ok {| reply := u "好，走。" |}.
Proof. vm_compute. reflexivity. Qed.

Lemma chat_blank_content_gives_empty_reply_witness :
  get_openai_client (Double.env_with (Double.replying_client (Some Double.blank_reply)))
  = Some (Double.replying_client (Some Double.blank_reply))
  /\ create (Double.replying_client (Some Double.blank_reply))
       (request_args Double.float_repr Double.isprintable
          (Double.env_with (Double.replying_client (Some Double.blank_reply)))
          (PostChat (Double.chat_request (Some (u "run")))))
     = Ok {| choices := [ {| message_content := Some Double.blank_reply |} ] |}
  /\ first_content {| choices := [ {| message_content := Some Double.blank_reply |} ] |}
     = Ok (Some Double.blank_reply)
  /\ Forall (fun c => isspace c = true) Double.blank_reply
  /\ api_chat Double.float_repr Double.isprintable
       (Double.env_with (Double.replying_client (Some Double.blank_reply)))
       (Double.chat_request (Some (u "run")))
     = Ok {| reply := [] |}.
Proof.
  assert (Hblank : Forall (fun c => isspace c = true) Double.blank_reply)
    by (repeat constructor).
  split; [reflexivity|]. split; [reflexivity|]. split; [reflexivity|].
  split; [exact Hblank|].
  apply (chat_blank_content_gives_empty_reply Double.float_repr Double.isprintable
           (Double.env_with (Double.replying_client (Some Double.blank_reply)))
           (Double.replying_client (Some Double.blank_reply))
           (Double.chat_request (Some (u "run")))
           {| choices := [ {| message_content := Some Double.blank_reply |} ] |}
           Double.blank_reply); [reflexivity|reflexivity|reflexivity|exact Hblank].
Defined.

Lemma chat_missing_content_gives_fallback_witness :
  get_openai_client (Double.env_with Double.choiceless_client) = Some Double.choiceless_client
  /\ create Double.choiceless_client
       (request_args Double.float_repr Double.isprintable
          (Double.env_with Double.choiceless_client)
          (PostChat (Double.chat_request (Some (u "run")))))
     = Ok {| choices := [] |}
  /\ (choices {| choices := [] |} = [] \/ first_content {| choices := [] |} = Ok None)
  /\ api_chat Double.float_repr Double.isprintable (Double.env_with Double.choiceless_client)
       (Double.chat_request (Some (u "run")))
     = Ok {| reply := u "先稳住阵脚，按既定路线走。" |}.
Proof.
  split; [reflexivity|]. split; [reflexivity|]. split; [left; reflexivity|].
  apply (chat_missing_content_gives_fallback Double.float_repr Double.isprintable
           (Double.env_with Double.choiceless_client) Double.choiceless_client
           (Double.chat_request (Some (u "run"))) {| choices := [] |});
    [reflexivity|reflexivity|left; reflexivity].
Defined.

Lemma no_provider_suggestions_monotone_witness :
  get_openai_client Double.no_provider = None
  /\ (n (Double.suggestion_request (-3)) <= n (Double.suggestion_request 5))%Z
  /\ exists resp resp',
       api_suggestions Double.float_repr Double.isprintable Double.json_loads
         Double.no_provider (Double.suggestion_request (-3)) = Ok resp
       /\ api_suggestions Double.float_repr Double.isprintable Double.json_loads
            Double.no_provider (Double.suggestion_request 5) = Ok resp'
       /\ suggestions resp `prefix_of` suggestions resp'.
Proof.
  split; [reflexivity|]. split; [simpl; lia|].
  apply (no_provider_suggestions_monotone Double.float_repr Double.isprintable
           Double.json_loads Double.no_provider
           (Double.suggestion_request (-3)) (Double.suggestion_request 5));
    [reflexivity|simpl; lia].
Defined.

Lemma provider_suggestions_count_witness :
  get_openai_client (Double.env_with (Double.replying_client (Some Double.empty_list_doc)))
  = Some (Double.replying_client (Some Double.empty_list_doc))
  /\ create (Double.replying_client (Some Double.empty_list_doc))
       (request_args Double.float_repr Double.isprintable
          (Double.env_with (Double.replying_client (Some Double.empty_list_doc)))
          (PostSuggestions (Double.suggestion_request 4)))
     = Ok {| choices := [ {| message_content := Some Double.empty_list_doc |} ] |}
  /\ first_content {| choices := [ {| message_content := Some Double.empty_list_doc |} ] |}
     = Ok (Some Double.empty_list_doc)
  /\ Double.json_loads_more (str_or (Some Double.empty_list_doc) (u "{}"))
     = Ok (JDict [ (u "suggestions", JList []) ])
  /\ dict_lookup [ (u "suggestions", JList []) ] (u "suggestions") = Some (JList [])
  /\ exists out,
       api_suggestions Double.float_repr Double.isprintable Double.json_loads_more
         (Double.env_with (Double.replying_client (Some Double.empty_list_doc)))
         (Double.suggestion_request 4) = Ok {| suggestions := out |}
       /\ length out
          = Nat.min (Z.to_nat (Z.max 1 (Z.min 8 (n (Double.suggestion_request 4)))))
              (length (@nil json)).
Proof.
  split; [reflexivity|]. split; [reflexivity|]. split; [reflexivity|].
  split; [vm_compute; reflexivity|]. split; [reflexivity|].
  apply (provider_suggestions_count Double.float_repr Double.isprintable
           Double.json_loads_more
           (Double.env_with (Double.replying_client (Some Double.empty_list_doc)))
           (Double.replying_client (Some Double.empty_list_doc))
           (Double.suggestion_request 4)
           {| choices := [ {| message_content := Some Double.empty_list_doc |} ] |}
           (Some Double.empty_list_doc) [ (u "suggestions", JList []) ] []);
    [reflexivity|reflexivity|reflexivity|vm_compute; reflexivity|reflexivity].
Defined.

Example suggestions_empty_and_short_lists :
  api_suggestions Double.float_repr Double.isprintable Double.json_loads_more
    (Double.env_with (Double.replying_client (Some Double.empty_list_doc)))
    (Double.suggestion_request 4)
  = Ok {| suggestions := [] |}
  /\ (exists out,
        api_suggestions Double.float_repr Double.isprintable Double.json_loads_more
          Double.suggesting_env (Double.suggestion_request 100)
        = Ok {| suggestions := out |} /\ length out = 7).
Proof. split; [vm_compute; reflexivity|]. eexists. split; vm_compute; reflexivity. Qed.

Lemma malformed_suggestions_give_pool_witness :
  get_openai_client (Double.env_with (Double.replying_client (Some Double.not_a_list_doc)))
  = Some (Double.replying_client (Some Double.not_a_list_doc))
  /\ create (Double.replying_client (Some Double.not_a_list_doc))
       (request_args Double.float_repr Double.isprintable
          (Double.env_with (Double.replying_client (Some Double.not_a_list_doc)))
          (PostSuggestions (Double.suggestion_request 3)))
     = Ok {| choices := [ {| message_content := Some Double.not_a_list_doc |} ] |}
  /\ first_content {| choices := [ {| message_content := Some Double.not_a_list_doc |} ] |}
     = Ok (Some Double.not_a_list_doc)
  /\ Double.json_loads_more (str_or (Some Double.not_a_list_doc) (u "{}"))
     = Ok Double.not_a_list_parsed
  /\ has_suggestion_list Double.not_a_list_parsed = false
  /\ (api_suggestions Double.float_repr Double.isprintable Double.json_loads_more
        (Double.env_with (Double.replying_client (Some Double.not_a_list_doc)))
        (Double.suggestion_request 3)
      = Ok {| suggestions :=
                _fallback_suggestions (Z.max 1 (Z.min 8 (n (Double.suggestion_request 3)))) |}
      /\ api_suggestions Double.float_repr Double.isprintable Double.json_loads_more
           (with_client
              (Double.env_with (Double.replying_client (Some Double.not_a_list_doc))) None)
           (Double.suggestion_request 3)
         = api_suggestions Double.float_repr Double.isprintable Double.json_loads_more
             (Double.env_with (Double.replying_client (Some Double.not_a_list_doc)))
             (Double.suggestion_request 3)).
Proof.
  split; [reflexivity|]. split; [reflexivity|]. split; [reflexivity|].
  split; [vm_compute; reflexivity|]. split; [reflexivity|].
  apply (malformed_suggestions_give_pool Double.float_repr Double.isprintable
           Double.json_loads_more
           (Double.env_with (Double.replying_client (Some Double.not_a_list_doc)))
           (Double.replying_client (Some Double.not_a_list_doc))
           (Double.suggestion_request 3)
           {| choices := [ {| message_content := Some Double.not_a_list_doc |} ] |}
           (Some Double.not_a_list_doc) Double.not_a_list_parsed);
    [reflexivity|reflexivity|reflexivity|vm_compute; reflexivity|reflexivity].
Defined.

Lemma empty_key_disables_provider_witness :
  (getenv Double.empty_key_env (u "OPENAI_API_KEY") = None
   \/ getenv Double.empty_key_env (u "OPENAI_API_KEY") = Some [])
  /\ (get_openai_client (with_client Double.empty_key_env (Some Double.failing_client)) = None
      /\ route Double.float_repr Double.isprintable Double.json_loads
           (with_client Double.empty_key_env (Some Double.failing_client))
           (PostVoice Double.voice_request)
         = route Double.float_repr Double.isprintable Double.json_loads
             (with_client Double.empty_key_env None) (PostVoice Double.voice_request)).
Proof.
  split; [right; reflexivity|].
  apply (empty_key_disables_provider Double.float_repr Double.isprintable Double.json_loads
           Double.empty_key_env (Some Double.failing_client) (PostVoice Double.voice_request)).
  right. reflexivity.
Defined.

Lemma response_depends_on_one_call_witness :
  create (Double.replying_client (Some Double.padded_reply))
    (request_args Double.float_repr Double.isprintable Double.failing_env
       (PostChat (Double.chat_request None)))
  = create (Double.chat_only_client (Some Double.padded_reply))
      (request_args Double.float_repr Double.isprintable Double.failing_env
         (PostChat (Double.chat_request None)))
  /\ route Double.float_repr Double.isprintable Double.json_loads
       (with_client Double.failing_env (Some (Double.replying_client (Some Double.padded_reply))))
       (PostChat (Double.chat_request None))
     = route Double.float_repr Double.isprintable Double.json_loads
         (with_client Double.failing_env
            (Some (Double.chat_only_client (Some Double.padded_reply))))
         (PostChat (Double.chat_request None)).
Proof.
  split; [reflexivity|].
  apply (response_depends_on_one_call Double.float_repr Double.isprintable Double.json_loads
           Double.failing_env (Double.replying_client (Some Double.padded_reply))
           (Double.chat_only_client (Some Double.padded_reply))
           (PostChat (Double.chat_request None))).
  reflexivity.
Defined.

Lemma voice_event_shape_witness :
  (forall f, Double.float_repr f <> [])
  /\ exists t title desc,
       api_voice Double.float_repr Double.isprintable Double.json_loads Double.voicing_env
         Double.voice_request = Ok {| world_event := event t title desc |}
       /\ t <> [] /\ title <> [] /\ desc <> [].
Proof.
  assert (H : forall f, Double.float_repr f <> []) by (intros f; discriminate).
  split; [exact H|].
  exact (voice_event_shape Double.float_repr Double.isprintable Double.json_loads
           Double.voicing_env Double.voice_request H).
Defined.

Lemma failure_against_no_provider_witness :
  get_openai_client Double.failing_env = Some Double.failing_client
  /\ get_openai_client Double.no_provider = None
  /\ provider_path Double.float_repr Double.isprintable Double.json_loads
       Double.failing_env Double.failing_client (PostVoice Double.voice_request)
     = Raise (ProviderError (u "connection refused"))
  /\ route Double.float_repr Double.isprintable Double.json_loads Double.failing_env
       (PostVoice Double.voice_request)
     <> route Double.float_repr Double.isprintable Double.json_loads Double.no_provider
          (PostVoice Double.voice_request).
Proof.
  split; [reflexivity|]. split; [reflexivity|]. split; [reflexivity|].
  apply (failure_against_no_provider Double.float_repr Double.isprintable Double.json_loads
           Double.failing_env Double.no_provider Double.failing_client
           (PostVoice Double.voice_request) (ProviderError (u "connection refused")));
    reflexivity.
Defined.

Lemma empty_content_answers_witness :
  get_openai_client (Double.env_with (Double.replying_client None))
  = Some (Double.replying_client None)
  /\ create (Double.replying_client None)
       (request_args Double.float_repr Double.isprintable
          (Double.env_with (Double.replying_client None)) (PostVoice Double.voice_request))
     = Ok {| choices := [ {| message_content := None |} ] |}
  /\ first_content {| choices := [ {| message_content := None |} ] |} = Ok None
  /\ (@None str = None \/ @None str = Some [])
  /\ Double.json_loads_more (u "{}") = Ok (JDict [])
  /\ route Double.float_repr Double.isprintable Double.json_loads_more
       (Double.env_with (Double.replying_client None)) (PostVoice Double.voice_request)
     = Ok (VoiceBody {| world_event :=
             event (field_default Ft) (field_default Ftitle) (field_default Fdesc) |}).
Proof.
  split; [reflexivity|]. split; [reflexivity|]. split; [reflexivity|].
  split; [left; reflexivity|]. split; [vm_compute; reflexivity|].
  apply (empty_content_answers Double.float_repr Double.isprintable Double.json_loads_more
           (Double.env_with (Double.replying_client None)) (Double.replying_client None)
           (PostVoice Double.voice_request)
           {| choices := [ {| message_content := None |} ] |} None);
    [reflexivity|reflexivity|reflexivity|left; reflexivity|vm_compute; reflexivity].
Defined.

Lemma world_context_of_events_starts_with_dash_witness :
  [Double.untitled] <> []
  /\ (u "- " `prefix_of` _build_world_context Double.float_repr Double.isprintable
                          [Double.untitled]
      /\ _build_world_context Double.float_repr Double.isprintable [Double.untitled]
         <> _build_world_context Double.float_repr Double.isprintable []).
Proof.
  split; [discriminate|].
  apply (world_context_of_events_starts_with_dash Double.float_repr Double.isprintable
           [Double.untitled]).
  discriminate.
Defined.

Lemma world_context_line_count_witness :
  replicate 8 Double.storm ++ [Double.noisy] <> []
  /\ Forall (fun ev => newlines (world_line Double.float_repr Double.isprintable ev) = 0)
       (take 8 (replicate 8 Double.storm ++ [Double.noisy]))
  /\ newlines (world_line Double.float_repr Double.isprintable Double.noisy) = 1
  /\ S (newlines (_build_world_context Double.float_repr Double.isprintable
                    (replicate 8 Double.storm ++ [Double.noisy])))
     = Nat.min 8 (length (replicate 8 Double.storm ++ [Double.noisy])).
Proof.
  assert (H : Forall (fun ev => newlines (world_line Double.float_repr Double.isprintable ev) = 0)
                (take 8 (replicate 8 Double.storm ++ [Double.noisy]))).
  { repeat constructor; vm_compute; reflexivity. }
  split; [discriminate|]. split; [exact H|]. split; [vm_compute; reflexivity|].
  apply (world_context_line_count Double.float_repr Double.isprintable
           (replicate 8 Double.storm ++ [Double.noisy])); [discriminate|exact H].
Defined.

Example serve_prototype_examples :
  serve_prototype {| isfile := fun _ => false |} = HTTPException 404 (u "prototype not found")
  /\ serve_prototype {| isfile := fun p => bool_decide (p = u "/workspace/prototype-3col.html") |}
     = FileResponse (u "/workspace/prototype-3col.html")
  /\ path_join (u "/workspace/") (u "a.html") = u "/workspace/a.html"
  /\ path_join (u "/workspace") (u "/etc/passwd") = u "/etc/passwd"
  /\ path_join [] (u "a.html") = u "a.html".
Proof. repeat split; vm_compute; reflexivity. Qed.
